(** * Student Management System: the handlers of [src/app.js]

    A shallow embedding of the Express route handlers of [src/app.js] and of
    the Mongoose model [Student] they talk to, followed by the properties of
    the handlers.

    - JavaScript values are a small inductive type; the coercions the
      handlers rely on ([!v], [v.length], [v < c], [Number(v)]) are written
      out after ECMA-262.
    - A handler is a program over the operations of the persistence
      collaborator ([prog]): every [await] is a node of the program, a
      rejected promise is a thrown error, [try]/[catch] is [try_catch].
    - The collaborator itself is an external library.  [Mongoose] below is
      a reference model of it, built from the schema of lines 27-56. *)

From Stdlib Require Import Ascii String QArith Lqa.
From stdpp Require Import gmap strings list fin_maps.

Set Warnings "-register-all".
Local Open Scope string_scope.

(** ** JavaScript values *)

(** A JavaScript number.  Finite values are exact rationals: rounding to a
    double and the sign of zero play no part in the handlers. *)
Inductive number : Type :=
| NaN
| NegInf
| Num (q : Q)
| PosInf.

Definition of_Z (z : Z) : number := Num (inject_Z z).
Definition of_nat (n : nat) : number := of_Z (Z.of_nat n).

(** [a < b] on numbers: false as soon as one side is [NaN]. *)
Definition num_lt (a b : number) : bool :=
  match a, b with
  | NaN, _ | _, NaN => false
  | _, NegInf => false
  | NegInf, _ => true
  | PosInf, _ => false
  | Num _, PosInf => true
  | Num x, Num y => negb (Qle_bool y x)
  end.

(** A timestamp, in milliseconds since the epoch. *)
Definition time := Z.

(** A stored Student, as Mongoose hands it back: the three paths of
    [studentSchema], the identifier, the two timestamps of
    [timestamps: true] and the version key. *)
Record document : Type := {
  _id : string;
  name : string;
  age : number;
  course : string;
  createdAt : time;
  updatedAt : time;
  __v : Z
}.

(** Values: what [JSON.parse] builds for a request body, what the handlers
    pass to [res.json], and Mongoose documents ([JDoc]), which [res.json]
    serialises through their [toJSON].  A string is the sequence of its
    code units, one character of [string] for each. *)
Inductive jsval : Type :=
| JUndefined
| JNull
| JBool (b : bool)
| JNum (n : number)
| JStr (s : string)
| JArr (items : list jsval)
| JObj (props : list (string * jsval))
| JDoc (d : document).

(** Errors, by constructor name; handlers only read [err.message]. *)
Inductive error : Type :=
| TypeError (msg : string)
| CastError (msg : string)
| ValidationError (msg : string)
| MongooseError (msg : string).

Definition message (e : error) : string :=
  match e with
  | TypeError m | CastError m | ValidationError m | MongooseError m => m
  end.

(** The result of an expression that may throw, or of a settled promise. *)
Inductive outcome (A : Type) : Type :=
| Resolved (a : A)
| Rejected (e : error).
Arguments Resolved {A} a.
Arguments Rejected {A} e.

Definition obind {A B} (o : outcome A) (f : A -> outcome B) : outcome B :=
  match o with
  | Resolved a => f a
  | Rejected e => Rejected e
  end.

(** The conversions of the language runtime that are not spelled out here:
    the numeric value of a string (StringToNumber), the text of a number
    (Number::toString) and ToNumber on an Array or Object, which goes
    through [valueOf]/[toString] and may throw a [TypeError]. *)
Class Runtime : Type := {
  StringToNumber : string -> number;
  NumberToString : number -> string;
  ObjectToNumber : jsval -> outcome number
}.

(** Own property lookup; the first binding of a key is the property. *)
Fixpoint get_prop (key : string) (props : list (string * jsval)) : jsval :=
  match props with
  | [] => JUndefined
  | (k, v) :: rest => if String.eqb k key then v else get_prop key rest
  end.

(** ToBoolean. *)
Definition truthy (v : jsval) : bool :=
  match v with
  | JUndefined | JNull => false
  | JBool b => b
  | JNum NaN => false
  | JNum (Num q) => negb (Qeq_bool q 0)
  | JNum _ => true
  | JStr s => negb (String.eqb s EmptyString)
  | JArr _ | JObj _ | JDoc _ => true
  end.

Section Language.
Context `{Runtime}.

(** ToNumber. *)
Definition ToNumber (v : jsval) : outcome number :=
  match v with
  | JUndefined => Resolved NaN
  | JNull => Resolved (of_Z 0)
  | JBool b => Resolved (if b then of_Z 1 else of_Z 0)
  | JNum n => Resolved n
  | JStr s => Resolved (StringToNumber s)
  | JArr _ | JObj _ | JDoc _ => ObjectToNumber v
  end.

(** [v.length]: a [TypeError] on [undefined] and [null], the length of a
    string or an array, the own property of an object, [undefined] on the
    other primitives. *)
Definition dot_length (v : jsval) : outcome jsval :=
  match v with
  | JUndefined | JNull =>
      Rejected (TypeError "Cannot read properties of undefined (reading 'length')")
  | JStr s => Resolved (JNum (of_nat (String.length s)))
  | JArr items => Resolved (JNum (of_nat (length items)))
  | JObj props => Resolved (get_prop "length" props)
  | JBool _ | JNum _ | JDoc _ => Resolved JUndefined
  end.

(** [v < c] and [v > c] for a numeric constant [c]: the left operand is
    converted to a number. *)
Definition js_lt (v : jsval) (c : Z) : outcome bool :=
  obind (ToNumber v) (fun n => Resolved (num_lt n (of_Z c))).

Definition js_gt (v : jsval) (c : Z) : outcome bool :=
  obind (ToNumber v) (fun n => Resolved (num_lt (of_Z c) n)).
End Language.

(** ** Handler programs *)

(** What a handler sends: [res.status(c).json(v)]. *)
Record response : Type := {
  status : Z;
  body : jsval
}.

(** A program over the collaborator.  Each operation node carries the
    arguments of the call and the continuation that receives the settled
    promise; [ReadyState] reads [mongoose.connection.readyState]. *)
Inductive prog (A : Type) : Type :=
| Ret (a : A)
| Throw (e : error)
| Find (k : outcome (list document) -> prog A)
| FindById (id : string) (k : outcome (option document) -> prog A)
| Save (obj : jsval) (k : outcome document -> prog A)
| FindByIdAndUpdate (id : string) (update : gmap string jsval)
    (k : outcome (option document) -> prog A)
| FindByIdAndDelete (id : string) (k : outcome (option document) -> prog A)
| ReadyState (k : Z -> prog A).
Arguments Ret {A} a.
Arguments Throw {A} e.
Arguments Find {A} k.
Arguments FindById {A} id k.
Arguments Save {A} obj k.
Arguments FindByIdAndUpdate {A} id update k.
Arguments FindByIdAndDelete {A} id k.
Arguments ReadyState {A} k.

Fixpoint bind {A B} (p : prog A) (f : A -> prog B) : prog B :=
  match p with
  | Ret a => f a
  | Throw e => Throw e
  | Find k => Find (fun r => bind (k r) f)
  | FindById id k => FindById id (fun r => bind (k r) f)
  | Save obj k => Save obj (fun r => bind (k r) f)
  | FindByIdAndUpdate id u k => FindByIdAndUpdate id u (fun r => bind (k r) f)
  | FindByIdAndDelete id k => FindByIdAndDelete id (fun r => bind (k r) f)
  | ReadyState k => ReadyState (fun r => bind (k r) f)
  end.

(** [try { p } catch (err) { h err }]. *)
Fixpoint try_catch {A} (p : prog A) (h : error -> prog A) : prog A :=
  match p with
  | Ret a => Ret a
  | Throw e => h e
  | Find k => Find (fun r => try_catch (k r) h)
  | FindById id k => FindById id (fun r => try_catch (k r) h)
  | Save obj k => Save obj (fun r => try_catch (k r) h)
  | FindByIdAndUpdate id u k => FindByIdAndUpdate id u (fun r => try_catch (k r) h)
  | FindByIdAndDelete id k => FindByIdAndDelete id (fun r => try_catch (k r) h)
  | ReadyState k => ReadyState (fun r => try_catch (k r) h)
  end.

#[export] Instance prog_ret : MRet prog := @Ret.
#[export] Instance prog_bind : MBind prog := fun A B f p => bind p f.

(** An expression that may throw; [await] of a settled promise. *)
Definition lift {A} (o : outcome A) : prog A :=
  match o with
  | Resolved a => Ret a
  | Rejected e => Throw e
  end.

Definition Student_find : prog (list document) := Find lift.
Definition Student_findById (id : string) : prog (option document) :=
  FindById id lift.
Definition Student_save (obj : jsval) : prog document := Save obj lift.
Definition Student_findByIdAndUpdate (id : string) (update : gmap string jsval)
  : prog (option document) := FindByIdAndUpdate id update lift.
Definition Student_findByIdAndDelete (id : string) : prog (option document) :=
  FindByIdAndDelete id lift.
Definition connection_readyState : prog Z := ReadyState Ret.

(** [res.json(v)] answers with the default status 200. *)
Definition res_status_json (code : Z) (v : jsval) : prog response :=
  Ret {| status := code; body := v |}.
Definition res_json (v : jsval) : prog response := res_status_json 200 v.

(** [{ error: msg }]. *)
Definition error_body (msg : string) : jsval := JObj [("error", JStr msg)].

(** ** The handlers *)

(** Lines 63-82. *)
Definition sampleStudents : list jsval :=
  [ JObj [("_id", JStr "686f66da1801707c14d09e60");
          ("name", JStr "Alice Johnson");
          ("age", JNum (of_Z 20));
          ("course", JStr "Computer Science")];
    JObj [("_id", JStr "686f66da1801707c14d09e61");
          ("name", JStr "Bob Smith");
          ("age", JNum (of_Z 22));
          ("course", JStr "Mechanical Engineering")];
    JObj [("_id", JStr "686f66da1801707c14d09e62");
          ("name", JStr "Charlie Lee");
          ("age", JNum (of_Z 19));
          ("course", JStr "Business Administration")] ].

(** GET /students, lines 89-96. *)
Definition get_students : prog response :=
  try_catch
    (students ← Student_find;
     res_json (JArr (JDoc <$> students)))
    (fun err => res_json (JArr sampleStudents)).

(** GET /students/:id, lines 99-109. *)
Definition get_student (id : string) : prog response :=
  try_catch
    (student ← Student_findById id;
     match student with
     | None => res_status_json 404 (error_body "Student not found")
     | Some d => res_json (JDoc d)
     end)
    (fun err => res_status_json 400 (error_body "Invalid student ID")).

(** PUT /students/:id, lines 146-161; the options of the call are fixed:
    [new: true, runValidators: true]. *)
Definition put_student (id : string) (req_body : gmap string jsval)
  : prog response :=
  try_catch
    (student ← Student_findByIdAndUpdate id req_body;
     match student with
     | None => res_status_json 404 (error_body "Student not found")
     | Some d => res_json (JDoc d)
     end)
    (fun err => res_status_json 400 (error_body (message err))).

(** DELETE /students/:id, lines 164-179. *)
Definition delete_student (id : string) : prog response :=
  try_catch
    (student ← Student_findByIdAndDelete id;
     match student with
     | None => res_status_json 404 (error_body "Student not found")
     | Some d =>
         res_json (JObj [("message", JStr "Student deleted");
                         ("student", JDoc d)])
     end)
    (fun err => res_status_json 500 (error_body (message err))).

Section Handlers.
Context `{Runtime}.

(** [req.body.key], [undefined] when the body has no such property. *)
Definition field (req_body : gmap string jsval) (key : string) : jsval :=
  default JUndefined (req_body !! key).

(** [!name || name.length < 2], line 116. *)
Definition name_check (name : jsval) : outcome bool :=
  if negb (truthy name) then Resolved true
  else obind (dot_length name) (fun len => js_lt len 2).

(** [!age || age < 16 || age > 100], line 122. *)
Definition age_check (age : jsval) : outcome bool :=
  if negb (truthy age) then Resolved true
  else obind (js_lt age 16) (fun below =>
         if below then Resolved true else js_gt age 100).

(** [!course], line 128. *)
Definition course_check (course : jsval) : bool := negb (truthy course).

Definition name_message : string :=
  "Name is required and must be at least 2 characters".
Definition age_message : string :=
  "Age is required and must be between 16 and 100".
Definition course_message : string := "Course is required".

(** The object [{ name, age: Number(age), course }] handed to
    [new Student], lines 132-136. *)
Definition new_student (name : jsval) (age : number) (course : jsval) : jsval :=
  JObj [("name", name); ("age", JNum age); ("course", course)].

(** The body of POST /students once [name], [age] and [course] are
    destructured from [req.body], lines 116-139. *)
Definition create_student (name age course : jsval) : prog response :=
  bad_name ← lift (name_check name);
  if bad_name : bool then res_status_json 400 (error_body name_message)
  else
    bad_age ← lift (age_check age);
    if bad_age : bool then res_status_json 400 (error_body age_message)
    else if course_check course
    then res_status_json 400 (error_body course_message)
    else
      age_number ← lift (ToNumber age);
      savedStudent ← Student_save (new_student name age_number course);
      res_status_json 201 (JDoc savedStudent).

(** POST /students, lines 112-143. *)
Definition post_students (req_body : gmap string jsval) : prog response :=
  try_catch
    (create_student (field req_body "name") (field req_body "age")
       (field req_body "course"))
    (fun err => res_status_json 400 (error_body (message err))).
End Handlers.

(** GET /, lines 184-228. *)
Definition running_message : string := "🚀 Student Management System is running!".
Definition connected_text : string := "Connected ✅".
Definition disconnected_text : string := "Disconnected ❌".

Definition endpoints : jsval :=
  JObj [("GET /", JStr "API info with students (this page)");
        ("GET /students", JStr "Get all students");
        ("GET /students/:id", JStr "Get single student");
        ("POST /students", JStr "Create new student");
        ("PUT /students/:id", JStr "Update student");
        ("DELETE /students/:id", JStr "Delete student")].

Definition examplePayload : jsval :=
  JObj [("createStudent",
         JObj [("name", JStr "Student Name");
               ("age", JNum (of_Z 20));
               ("course", JStr "Computer Science")])].

Definition get_root : prog response :=
  try_catch
    (students ←
       try_catch
         (found ← Student_find;
          let students := JDoc <$> found in
          if (length students =? 0)%nat then Ret sampleStudents
          else Ret students)
         (fun err => Ret sampleStudents);
     readyState ← connection_readyState;
     res_json
       (JObj [("message", JStr running_message);
              ("status", JStr "Server is active");
              ("database",
               JStr (if (readyState =? 1)%Z then connected_text
                     else disconnected_text));
              ("totalStudents", JNum (of_nat (length students)));
              ("students", JArr students);
              ("endpoints", endpoints);
              ("examplePayload", examplePayload)]))
    (fun err =>
       res_json
         (JObj [("message", JStr running_message);
                ("status", JStr "Server is active");
                ("database", JStr disconnected_text);
                ("totalStudents", JNum (of_nat (length sampleStudents)));
                ("students", JArr sampleStudents)])).

(** ** Running a program against a collaborator *)

(** The five operations of the model [Student] that the handlers call and
    the connection-state signal, over a collaborator state [St]. *)
Record collaborator (St : Type) : Type := {
  on_find : St -> outcome (list document) * St;
  on_findById : string -> St -> outcome (option document) * St;
  on_save : jsval -> St -> outcome document * St;
  on_findByIdAndUpdate :
    string -> gmap string jsval -> St -> outcome (option document) * St;
  on_findByIdAndDelete : string -> St -> outcome (option document) * St;
  on_readyState : St -> Z
}.
Arguments on_find {St} c st.
Arguments on_findById {St} c id st.
Arguments on_save {St} c obj st.
Arguments on_findByIdAndUpdate {St} c id update st.
Arguments on_findByIdAndDelete {St} c id st.
Arguments on_readyState {St} c st.

Fixpoint run {St A} (c : collaborator St) (p : prog A) (st : St)
  : outcome A * St :=
  match p with
  | Ret a => (Resolved a, st)
  | Throw e => (Rejected e, st)
  | Find k => let '(r, st') := on_find c st in run c (k r) st'
  | FindById id k => let '(r, st') := on_findById c id st in run c (k r) st'
  | Save obj k => let '(r, st') := on_save c obj st in run c (k r) st'
  | FindByIdAndUpdate id u k =>
      let '(r, st') := on_findByIdAndUpdate c id u st in run c (k r) st'
  | FindByIdAndDelete id k =>
      let '(r, st') := on_findByIdAndDelete c id st in run c (k r) st'
  | ReadyState k => run c (k (on_readyState c st)) st
  end.

(** The number of operations of the collaborator a run performs; reading
    the connection state is not one. *)
Fixpoint calls {St A} (c : collaborator St) (p : prog A) (st : St) : nat :=
  match p with
  | Ret _ | Throw _ => 0
  | Find k => let '(r, st') := on_find c st in S (calls c (k r) st')
  | FindById id k =>
      let '(r, st') := on_findById c id st in S (calls c (k r) st')
  | Save obj k => let '(r, st') := on_save c obj st in S (calls c (k r) st')
  | FindByIdAndUpdate id u k =>
      let '(r, st') := on_findByIdAndUpdate c id u st in S (calls c (k r) st')
  | FindByIdAndDelete id k =>
      let '(r, st') := on_findByIdAndDelete c id st in S (calls c (k r) st')
  | ReadyState k => calls c (k (on_readyState c st)) st
  end.

(** ** Answers *)

(** Reading a property of a JSON object. *)
Definition prop (v : jsval) (key : string) : jsval :=
  match v with
  | JObj props => get_prop key props
  | _ => JUndefined
  end.

Definition not_found : response :=
  {| status := 404; body := error_body "Student not found" |}.

(** [{ error: msg }] with status 400. *)
Definition bad_request (msg : string) : response :=
  {| status := 400; body := error_body msg |}.

(** The handler answers 400 with [msg] and performs no operation of the
    collaborator, whose state is left as it was. *)
Definition rejects_before_persistence (p : prog response) (msg : string) : Prop :=
  forall (St : Type) (c : collaborator St) (st : St),
    run c p st = (Resolved (bad_request msg), st) /\ calls c p st = 0.

(** ** The persistence collaborator *)

Module Mongoose.

(** Modelled from the spec: the persistence collaborator, the Mongoose
    model [Student] over a MongoDB collection, is an external library.
    The model below follows the contract of the specification (find-all,
    find-by-id, create-with-validation, find-and-update-with-validation,
    find-and-delete, a readable connection state) and takes the field
    rules from [studentSchema], lines 27-56.  The collection is keyed by
    identifier; [fault] is the error a reachable server answers every
    command with, if any; [issued] counts the identifiers handed out. *)
Record store : Type := {
  readyState : Z;
  fault : option string;
  students : gmap string document;
  now : time;
  issued : N
}.

(** The id-format rule: an ObjectId is written as 24 hexadecimal digits. *)
Definition is_hex (c : ascii) : bool :=
  let n := nat_of_ascii c in
  ((48 <=? n) && (n <=? 57) || (97 <=? n) && (n <=? 102)
   || (65 <=? n) && (n <=? 70))%nat.

Definition valid_object_id (id : string) : bool :=
  (String.length id =? 24)%nat && forallb is_hex (list_ascii_of_string id).

Definition hex_digit (n : N) : ascii :=
  nth (N.to_nat n) (list_ascii_of_string "0123456789abcdef") "0"%char.

Fixpoint hex_of (digits : nat) (n : N) : string :=
  match digits with
  | O => EmptyString
  | S d => hex_of d (n / 16) ++ String (hex_digit (n mod 16)) EmptyString
  end.

Definition new_object_id (st : store) : string := hex_of 24 (issued st).

(** The enumerated courses, lines 43-50. *)
Definition courses : list string :=
  [ "Computer Science"; "Mechanical Engineering"; "Electrical Engineering";
    "Business Administration"; "Civil Engineering"; "Medical Science" ].

Definition in_enum (s : string) : bool := existsb (String.eqb s) courses.

(** A command reaches the server when the connection is open and the
    server does not answer with an error; otherwise the promise rejects
    (a buffered command times out on a closed connection). *)
Definition reach (st : store) : option error :=
  if negb (readyState st =? 1)%Z
  then Some (MongooseError "Operation buffering timed out after 10000ms")
  else match fault st with
       | Some msg => Some (MongooseError msg)
       | None => None
       end.

Definition available (st : store) : Prop := reach st = None.

Definition id_cast_error : error :=
  CastError "Cast to ObjectId failed at path `_id` for model `Student`".




Section Schema.
Context `{Runtime}.

(** The cast of a schema path of type [String]: [null] and [undefined]
    stay absent, numbers and booleans are printed, arrays and objects
    fail. *)
Definition cast_string (v : jsval) : outcome (option string) :=
  match v with
  | JUndefined | JNull => Resolved None
  | JStr s => Resolved (Some s)
  | JNum n => Resolved (Some (NumberToString n))
  | JBool b => Resolved (Some (if b then "true" else "false"))
  | JArr _ | JObj _ | JDoc _ => Rejected (CastError "Cast to string failed")
  end.

(** The cast of a schema path of type [Number]: [null], [undefined] and
    the empty string stay absent, strings and booleans are converted,
    [NaN], arrays and objects fail. *)
Definition cast_number (v : jsval) : outcome (option number) :=
  match v with
  | JUndefined | JNull => Resolved None
  | JNum NaN => Rejected (CastError "Cast to Number failed")
  | JNum n => Resolved (Some n)
  | JBool b => Resolved (Some (if b then of_Z 1 else of_Z 0))
  | JStr s =>
      if String.eqb s EmptyString then Resolved None
      else match StringToNumber s with
           | NaN => Rejected (CastError "Cast to Number failed")
           | n => Resolved (Some n)
           end
  | JArr _ | JObj _ | JDoc _ => Rejected (CastError "Cast to Number failed")
  end.

(** The validators [studentSchema] declares for a path (lines 29-51), in
    the order they run: the failure message, or the value that passes. *)
Definition validate_name (v : option string) : string + string :=
  match v with
  | None => inl "Path `name` is required."
  | Some s =>
      if String.eqb s EmptyString then inl "Path `name` is required."
      else if (String.length s <? 2)%nat
      then inl ("Path `name` (`" ++ s
                ++ "`) is shorter than the minimum allowed length (2).")
      else inr s
  end.

Definition validate_age (v : option number) : string + number :=
  match v with
  | None => inl "Path `age` is required."
  | Some n =>
      if num_lt n (of_Z 16)
      then inl ("Path `age` (" ++ NumberToString n
                ++ ") is less than minimum allowed value (16).")
      else if num_lt (of_Z 100) n
      then inl ("Path `age` (" ++ NumberToString n
                ++ ") is more than maximum allowed value (100).")
      else inr n
  end.

Definition validate_course (v : option string) : string + string :=
  match v with
  | None => inl "Path `course` is required."
  | Some s =>
      if String.eqb s EmptyString then inl "Path `course` is required."
      else if in_enum s then inr s
      else inl ("`" ++ s ++ "` is not a valid enum value for path `course`.")
  end.

Definition report {A} (path : string) (r : string + A) : list string :=
  match r with
  | inl msg => [path ++ ": " ++ msg]
  | inr _ => []
  end.

(** A path of a new document: a failed cast is reported as a failed
    validation of the path. *)
Definition check_path {A} (cast : jsval -> outcome (option A))
    (validate : option A -> string + A) (v : jsval) : string + A :=
  match cast v with
  | Rejected e => inl (message e)
  | Resolved a => validate a
  end.

Definition props_of (obj : jsval) : list (string * jsval) :=
  match obj with
  | JObj props => props
  | _ => []
  end.

(** Modelled from the spec: create-with-validation,
    [new Student(obj).save()].  The document is validated first; a valid
    document is inserted under a new identifier, stamped with the current
    time. *)
Definition save (obj : jsval) (st : store) : outcome document * store :=
  let props := props_of obj in
  match check_path cast_string validate_name (get_prop "name" props),
        check_path cast_number validate_age (get_prop "age" props),
        check_path cast_string validate_course (get_prop "course" props)
  with
  | inr nm, inr ag, inr co =>
      match reach st with
      | Some e => (Rejected e, st)
      | None =>
          let id := new_object_id st in
          match students st !! id with
          | Some _ =>
              (Rejected (MongooseError "E11000 duplicate key error"), st)
          | None =>
              let d := {| _id := id; name := nm; age := ag; course := co;
                          createdAt := now st; updatedAt := now st;
                          __v := 0 |} in
              (Resolved d,
               {| readyState := readyState st; fault := fault st;
                  students := <[id := d]> (students st);
                  now := (now st + 1)%Z; issued := (issued st + 1)%N |})
          end
      end
  | rn, ra, rc =>
      (Rejected
         (ValidationError
            ("Student validation failed: "
             ++ String.concat ", "
                  (report "name" rn ++ report "age" ra
                   ++ report "course" rc))),
       st)
  end.

(** Modelled from the spec: find-all, [Student.find()]. *)
Definition find (st : store) : outcome (list document) * store :=
  match reach st with
  | Some e => (Rejected e, st)
  | None => (Resolved ((map_to_list (students st)).*2), st)
  end.

(** Modelled from the spec: find-by-id, [Student.findById(id)].  The
    identifier is cast first. *)
Definition findById (id : string) (st : store)
  : outcome (option document) * store :=
  if negb (valid_object_id id) then (Rejected id_cast_error, st)
  else match reach st with
       | Some e => (Rejected e, st)
       | None => (Resolved (students st !! id), st)
       end.

(** A path of an update: absent from the update, or cast. *)
Definition cast_supplied {A} (cast : jsval -> outcome (option A))
    (v : option jsval) : outcome (option (option A)) :=
  match v with
  | None => Resolved None
  | Some v => obind (cast v) (fun a => Resolved (Some a))
  end.

(** The validators run on the supplied paths only. *)
Definition validate_supplied {A} (validate : option A -> string + A)
    (v : option (option A)) : string + option A :=
  match v with
  | None => inr None
  | Some a =>
      match validate a with
      | inl msg => inl msg
      | inr a' => inr (Some a')
      end
  end.

(** The changes an update of field assignments asks for: a failed cast
    of a supplied path rejects with the cast error, a failed validator
    with the validation error; otherwise the new value of each
    supplied path.  Keys outside the schema are dropped by the
    schema's strict mode. *)
Definition changes (update : gmap string jsval)
  : outcome (option string * option number * option string) :=
  obind (cast_supplied cast_string (update !! "name")) (fun n =>
  obind (cast_supplied cast_number (update !! "age")) (fun a =>
  obind (cast_supplied cast_string (update !! "course")) (fun c =>
  match validate_supplied validate_name n,
        validate_supplied validate_age a,
        validate_supplied validate_course c
  with
  | inr n', inr a', inr c' => Resolved (n', a', c')
  | rn, ra, rc =>
      Rejected
        (ValidationError
           ("Validation failed: "
            ++ String.concat ", "
                 (report "name" rn ++ report "age" ra
                  ++ report "course" rc)))
  end))).

(** The record after an update: supplied paths take their new value,
    [updatedAt] the time of the update. *)
Definition apply_changes
    (ch : option string * option number * option string) (at_time : time)
    (d : document) : document :=
  let '(n, a, c) := ch in
  {| _id := _id d;
     name := default (name d) n;
     age := default (age d) a;
     course := default (course d) c;
     createdAt := createdAt d;
     updatedAt := at_time;
     __v := __v d |}.

(** Modelled from the spec: find-and-update-with-validation,
    [Student.findByIdAndUpdate(id, update, { new: true, runValidators:
    true })].  The identifier is cast, the update is cast and validated,
    then the record is looked up and changed; the updated document is
    returned. *)
Definition findByIdAndUpdate (id : string) (update : gmap string jsval)
    (st : store) : outcome (option document) * store :=
  if negb (valid_object_id id) then (Rejected id_cast_error, st)
  else
    match changes update with
    | Rejected e => (Rejected e, st)
    | Resolved ch =>
        match reach st with
        | Some e => (Rejected e, st)
        | None =>
            match students st !! id with
            | None => (Resolved None, st)
            | Some d =>
                let d' := apply_changes ch (now st) d in
                (Resolved (Some d'),
                 {| readyState := readyState st; fault := fault st;
                    students := <[id := d']> (students st);
                    now := (now st + 1)%Z; issued := issued st |})
            end
        end
    end.

(** Modelled from the spec: find-and-delete,
    [Student.findByIdAndDelete(id)]. *)
Definition findByIdAndDelete (id : string) (st : store)
  : outcome (option document) * store :=
  if negb (valid_object_id id) then (Rejected id_cast_error, st)
  else match reach st with
       | Some e => (Rejected e, st)
       | None =>
           match students st !! id with
           | None => (Resolved None, st)
           | Some d =>
               (Resolved (Some d),
                {| readyState := readyState st; fault := fault st;
                   students := delete id (students st);
                   now := now st; issued := issued st |})
           end
       end.

(** A path of an accepted update: left out, or cast and validated. *)
Definition settled {A} (cast : jsval -> outcome (option A))
    (validate : option A -> string + A) (v : option jsval) (r : option A)
  : Prop :=
  match v with
  | None => r = None
  | Some v => exists a o, r = Some a /\ cast v = Resolved o /\ validate o = inr a
  end.

Definition model : collaborator store := {|
  on_find := find;
  on_findById := findById;
  on_save := save;
  on_findByIdAndUpdate := findByIdAndUpdate;
  on_findByIdAndDelete := findByIdAndDelete;
  on_readyState := readyState
|}.
End Schema.
End Mongoose.

(** ** A runtime and stores for the examples *)

Module Examples.

Definition is_digit (c : ascii) : bool :=
  let n := nat_of_ascii c in ((48 <=? n) && (n <=? 57))%nat.

Fixpoint digits_value (acc : Z) (s : string) : Z :=
  match s with
  | EmptyString => acc
  | String c rest =>
      digits_value (acc * 10 + Z.of_nat (nat_of_ascii c - 48)) rest
  end.

(** Reads the empty string as 0 and a run of decimal digits as its
    value; the other numeric literals of the language are not read. *)
Definition read_number (s : string) : number :=
  if forallb is_digit (list_ascii_of_string s)
  then of_Z (digits_value 0 s)
  else NaN.

Definition digit_string (d : Z) : string :=
  String (ascii_of_nat (48 + Z.to_nat d)) EmptyString.

Fixpoint print_digits (fuel : nat) (z : Z) : string :=
  match fuel with
  | O => EmptyString
  | S fuel' =>
      if (z <? 10)%Z then digit_string z
      else print_digits fuel' (z / 10) ++ digit_string (z mod 10)
  end.

Definition print_Z (z : Z) : string :=
  if (z <? 0)%Z then "-" ++ print_digits (Z.to_nat (Z.log2 (- z)) + 1) (- z)
  else print_digits (Z.to_nat (Z.log2 z) + 1) z.

(** Prints the integers as the language does, a fraction as a quotient. *)
Definition print_number (n : number) : string :=
  match n with
  | NaN => "NaN"
  | NegInf => "-Infinity"
  | PosInf => "Infinity"
  | Num q =>
      if (Z.pos (Qden q) =? 1)%Z then print_Z (Qnum q)
      else print_Z (Qnum q) ++ "/" ++ print_Z (Z.pos (Qden q))
  end.

(** ToNumber on an object built by [JSON.parse]: an array prints as its
    elements joined by commas, so the empty array is 0 and an array of
    one number, string or [null] is the number of that element; an object
    prints as [[object Object]], which reads as NaN, unless an own
    [toString] property hides the inherited method.  Nested arrays are not
    read. *)
Definition object_number (v : jsval) : outcome number :=
  match v with
  | JArr [] | JArr [JNull] => Resolved (of_Z 0)
  | JArr [JNum n] => Resolved n
  | JArr [JStr s] => Resolved (read_number s)
  | JObj props =>
      match get_prop "toString" props with
      | JUndefined => Resolved NaN
      | _ => Rejected (TypeError "Cannot convert object to primitive value")
      end
  | _ => Resolved NaN
  end.

#[export] Instance runtime : Runtime := {|
  StringToNumber := read_number;
  NumberToString := print_number;
  ObjectToNumber := object_number
|}.

(** A connected, empty collection. *)
Definition empty_store : Mongoose.store := {|
  Mongoose.readyState := 1;
  Mongoose.fault := None;
  Mongoose.students := ∅;
  Mongoose.now := 1752000000000%Z;
  Mongoose.issued := 0
|}.

(** The connection never opened. *)
Definition offline_store : Mongoose.store := {|
  Mongoose.readyState := 0;
  Mongoose.fault := None;
  Mongoose.students := ∅;
  Mongoose.now := 1752000000000%Z;
  Mongoose.issued := 0
|}.

(** A connected server that refuses the commands. *)
Definition refusing_store : Mongoose.store := {|
  Mongoose.readyState := 1;
  Mongoose.fault := Some "not authorized on studentdb to execute command";
  Mongoose.students := ∅;
  Mongoose.now := 1752000000000%Z;
  Mongoose.issued := 0
|}.

Definition dana : gmap string jsval :=
  {[ "name" := JStr "Dana Kim"; "age" := JNum (of_Z 21);
     "course" := JStr "Civil Engineering" ]}.

Definition dana_id : string := "000000000000000000000000".

Definition dana_doc : document := {|
  _id := dana_id; name := "Dana Kim"; age := of_Z 21;
  course := "Civil Engineering";
  createdAt := 1752000000000%Z; updatedAt := 1752000000000%Z; __v := 0
|}.

(** The store once Dana is created in [empty_store]. *)
Definition dana_store : Mongoose.store := {|
  Mongoose.readyState := 1;
  Mongoose.fault := None;
  Mongoose.students := {[ dana_id := dana_doc ]};
  Mongoose.now := 1752000000001%Z;
  Mongoose.issued := 1
|}.

(** Requests. *)
Definition short_name : gmap string jsval :=
  {[ "name" := JStr "A"; "age" := JNum (of_Z 20);
     "course" := JStr "Astrology" ]}.

Definition too_young : gmap string jsval :=
  {[ "name" := JStr "Dana Kim"; "age" := JNum (of_Z 15) ]}.

Definition no_course : gmap string jsval :=
  {[ "name" := JStr "Dana Kim"; "age" := JNum (of_Z 21) ]}.

Definition unlisted_course : gmap string jsval :=
  {[ "name" := JStr "Dana Kim"; "age" := JNum (of_Z 21);
     "course" := JStr "Astrology" ]}.

Definition absent_id : string := "686f66da1801707c14d09e60".

Definition age_25 : gmap string jsval := {[ "age" := JNum (of_Z 25) ]}.

Definition dana_with_extras : gmap string jsval :=
  <["_id" := JStr "686f66da1801707c14d09e60"]>
    (<["createdAt" := JNum (of_Z 0)]> (<["admin" := JBool true]> dana)).
End Examples.

(** ** The operations of a run *)

(** The calls of the collaborator, with their arguments. *)
Inductive operation : Type :=
| OpFind
| OpFindById (id : string)
| OpSave (obj : jsval)
| OpFindByIdAndUpdate (id : string) (update : gmap string jsval)
| OpFindByIdAndDelete (id : string).

(** The operations a run performs, in order. *)
Fixpoint trace {St A} (c : collaborator St) (p : prog A) (st : St)
  : list operation :=
  match p with
  | Ret _ | Throw _ => []
  | Find k => let '(r, st') := on_find c st in OpFind :: trace c (k r) st'
  | FindById id k =>
      let '(r, st') := on_findById c id st in
      OpFindById id :: trace c (k r) st'
  | Save obj k =>
      let '(r, st') := on_save c obj st in OpSave obj :: trace c (k r) st'
  | FindByIdAndUpdate id u k =>
      let '(r, st') := on_findByIdAndUpdate c id u st in
      OpFindByIdAndUpdate id u :: trace c (k r) st'
  | FindByIdAndDelete id k =>
      let '(r, st') := on_findByIdAndDelete c id st in
      OpFindByIdAndDelete id :: trace c (k r) st'
  | ReadyState k => trace c (k (on_readyState c st)) st
  end.

(** ** Requests *)


Section Requests.
Context `{Runtime}.


End Requests.




(** An answer with status [code] and a body [{ error: msg }]. *)
Definition error_answer (r : response) (code : Z) : Prop :=
  status r = code /\ exists msg, body r = error_body msg.

(** ** Start of the server *)

(** What [listen] meets on a port: the server listens, or the error event
    carries a code. *)
Inductive listen_result : Type :=
| Listening
| ListenError (code : string).

(** Line 233. *)
Definition PORT : Z := 3000.

(** The ports tried, in order, and the port the server listens on. *)
Record startup : Type := {
  attempts : list Z;
  port : option Z
}.

(** Lines 234-252: [app.listen(PORT)], and on its error event, when the
    code is [EADDRINUSE], [app.listen(3001)]. *)
Definition start_server (listen : Z -> listen_result) : startup :=
  match listen PORT with
  | Listening => {| attempts := [PORT]; port := Some PORT |}
  | ListenError code =>
      if String.eqb code "EADDRINUSE"
      then match listen 3001%Z with
           | Listening => {| attempts := [PORT; 3001%Z]; port := Some 3001%Z |}
           | ListenError _ => {| attempts := [PORT; 3001%Z]; port := None |}
           end
      else {| attempts := [PORT]; port := None |}
  end.

(** ** More requests and stores for the examples *)

Module Scenarios.

(** Dana, with her age given as text. *)
Definition dana_text_age : gmap string jsval :=
  {[ "name" := JStr "Dana Kim"; "age" := JStr "21";
     "course" := JStr "Civil Engineering" ]}.

Definition unreadable_age : gmap string jsval :=
  {[ "name" := JStr "Dana Kim"; "age" := JStr "abc";
     "course" := JStr "Civil Engineering" ]}.

Definition numeric_name : gmap string jsval :=
  {[ "name" := JNum (of_Z 12345); "age" := JNum (of_Z 21);
     "course" := JStr "Civil Engineering" ]}.

Definition numeric_name_doc : document := {|
  _id := Examples.dana_id; name := "12345"; age := of_Z 21;
  course := "Civil Engineering";
  createdAt := 1752000000000%Z; updatedAt := 1752000000000%Z; __v := 0
|}.

Definition numeric_name_store : Mongoose.store := {|
  Mongoose.readyState := 1;
  Mongoose.fault := None;
  Mongoose.students := {[ Examples.dana_id := numeric_name_doc ]};
  Mongoose.now := 1752000000001%Z;
  Mongoose.issued := 1
|}.

(** Dana once her age is updated to 25 in [Examples.dana_store]. *)
Definition dana_25_doc : document := {|
  _id := Examples.dana_id; name := "Dana Kim"; age := of_Z 25;
  course := "Civil Engineering";
  createdAt := 1752000000000%Z; updatedAt := 1752000000001%Z; __v := 0
|}.

Definition dana_25_store : Mongoose.store := {|
  Mongoose.readyState := 1;
  Mongoose.fault := None;
  Mongoose.students := {[ Examples.dana_id := dana_25_doc ]};
  Mongoose.now := 1752000000002%Z;
  Mongoose.issued := 1
|}.

(** [Examples.dana_store] once Dana is deleted. *)
Definition emptied_store : Mongoose.store := {|
  Mongoose.readyState := 1;
  Mongoose.fault := None;
  Mongoose.students := ∅;
  Mongoose.now := 1752000000001%Z;
  Mongoose.issued := 1
|}.

(** Port 3000 is taken, the other ports are free. *)
Definition port_3000_taken (p : Z) : listen_result :=
  if (p =? 3000)%Z then ListenError "EADDRINUSE" else Listening.

(** Port 3000 may not be bound, the other ports are free. *)
Definition port_3000_denied (p : Z) : listen_result :=
  if (p =? 3000)%Z then ListenError "EACCES" else Listening.
End Scenarios.

(** * Properties *)

Section Generic.
Context {St : Type} (c : collaborator St).

(** ** GET /students against any collaborator *)

Lemma get_students_resolved st found st' :
  on_find c st = (Resolved found, st') ->
  run c get_students st
  = (Resolved {| status := 200; body := JArr (JDoc <$> found) |}, st').
Proof. intros Hfind. cbn. rewrite Hfind. reflexivity. Qed.

Lemma get_students_rejected st e st' :
  on_find c st = (Rejected e, st') ->
  run c get_students st
  = (Resolved {| status := 200; body := JArr sampleStudents |}, st').
Proof. intros Hfind. cbn. rewrite Hfind. reflexivity. Qed.

Lemma get_students_always_200 st :
  exists resp st',
    run c get_students st = (Resolved resp, st') /\ status resp = 200%Z.
Proof.
  destruct (on_find c st) as [[found | e] st'] eqn:Hfind.
  - eexists _, _. split; [apply (get_students_resolved _ _ _ Hfind) | reflexivity].
  - eexists _, _. split; [apply (get_students_rejected _ _ _ Hfind) | reflexivity].
Qed.

(** ** The handlers that take an identifier, by the settled promise *)

Lemma get_student_rejected id st e st' :
  on_findById c id st = (Rejected e, st') ->
  run c (get_student id) st
  = (Resolved {| status := 400; body := error_body "Invalid student ID" |}, st').
Proof. intros Hop. cbn. rewrite Hop. reflexivity. Qed.

Lemma get_student_null id st st' :
  on_findById c id st = (Resolved None, st') ->
  run c (get_student id) st = (Resolved not_found, st').
Proof. intros Hop. cbn. rewrite Hop. reflexivity. Qed.

Lemma get_student_found id st d st' :
  on_findById c id st = (Resolved (Some d), st') ->
  run c (get_student id) st
  = (Resolved {| status := 200; body := JDoc d |}, st').
Proof. intros Hop. cbn. rewrite Hop. reflexivity. Qed.

Lemma put_student_rejected id update st e st' :
  on_findByIdAndUpdate c id update st = (Rejected e, st') ->
  run c (put_student id update) st
  = (Resolved {| status := 400; body := error_body (message e) |}, st').
Proof. intros Hop. cbn. rewrite Hop. reflexivity. Qed.

Lemma put_student_null id update st st' :
  on_findByIdAndUpdate c id update st = (Resolved None, st') ->
  run c (put_student id update) st = (Resolved not_found, st').
Proof. intros Hop. cbn. rewrite Hop. reflexivity. Qed.

Lemma put_student_found id update st d st' :
  on_findByIdAndUpdate c id update st = (Resolved (Some d), st') ->
  run c (put_student id update) st
  = (Resolved {| status := 200; body := JDoc d |}, st').
Proof. intros Hop. cbn. rewrite Hop. reflexivity. Qed.

Lemma delete_student_rejected id st e st' :
  on_findByIdAndDelete c id st = (Rejected e, st') ->
  run c (delete_student id) st
  = (Resolved {| status := 500; body := error_body (message e) |}, st').
Proof. intros Hop. cbn. rewrite Hop. reflexivity. Qed.

Lemma delete_student_null id st st' :
  on_findByIdAndDelete c id st = (Resolved None, st') ->
  run c (delete_student id) st = (Resolved not_found, st').
Proof. intros Hop. cbn. rewrite Hop. reflexivity. Qed.

Lemma delete_student_found id st d st' :
  on_findByIdAndDelete c id st = (Resolved (Some d), st') ->
  run c (delete_student id) st
  = (Resolved
       {| status := 200;
          body := JObj [("message", JStr "Student deleted");
                        ("student", JDoc d)] |}, st').
Proof. intros Hop. cbn. rewrite Hop. reflexivity. Qed.
End Generic.

Section Store.
Context `{Runtime}.
Import Mongoose.

(** ** The collaborator's answers *)

Lemma available_reach st : available st -> reach st = None.
Proof. intros Hst. exact Hst. Qed.

Lemma findById_malformed id st :
  valid_object_id id = false -> findById id st = (Rejected id_cast_error, st).
Proof. intros Hid. unfold findById. rewrite Hid. reflexivity. Qed.

Lemma findById_lookup id st :
  valid_object_id id = true -> available st ->
  findById id st = (Resolved (students st !! id), st).
Proof.
  intros Hid Hst. unfold findById. rewrite Hid, (available_reach _ Hst).
  reflexivity.
Qed.

Lemma findById_unreachable id st e :
  valid_object_id id = true -> reach st = Some e ->
  findById id st = (Rejected e, st).
Proof. intros Hid Hst. unfold findById. rewrite Hid, Hst. reflexivity. Qed.

Lemma findByIdAndDelete_malformed id st :
  valid_object_id id = false ->
  findByIdAndDelete id st = (Rejected id_cast_error, st).
Proof. intros Hid. unfold findByIdAndDelete. rewrite Hid. reflexivity. Qed.

Lemma findByIdAndUpdate_malformed id update st :
  valid_object_id id = false ->
  findByIdAndUpdate id update st = (Rejected id_cast_error, st).
Proof. intros Hid. unfold findByIdAndUpdate. rewrite Hid. reflexivity. Qed.

Lemma find_unreachable st e :
  reach st = Some e -> find st = (Rejected e, st).
Proof. intros Hst. unfold find. rewrite Hst. reflexivity. Qed.

Lemma find_available st :
  available st -> find st = (Resolved ((map_to_list (students st)).*2), st).
Proof. intros Hst. unfold find. rewrite (available_reach _ Hst). reflexivity. Qed.

(** ** GET /students *)

(** C1, where the code departs from it: on a connected, empty collection
    the fetch of GET /students resolves to an empty array, and the
    handler answers 200 with that empty array, not with the three
    fallback Students. *)
Theorem list_of_empty_collection_is_empty :
  run model get_students Examples.empty_store
  = (Resolved {| status := 200; body := JArr [] |}, Examples.empty_store)
  /\ JArr [] <> JArr sampleStudents.
Proof. split; [reflexivity | discriminate]. Qed.

(** A fetch that fails is answered by GET /students with the fallback
    dataset and status 200. *)
Lemma list_of_unreachable_store st e :
  reach st = Some e ->
  run model get_students st
  = (Resolved {| status := 200; body := JArr sampleStudents |}, st).
Proof.
  intros Hst. apply (get_students_rejected model st e). apply find_unreachable, Hst.
Qed.

(** GET / answers a failed or empty fetch with the fallback dataset. *)
Lemma root_falls_back st :
  reach st <> None \/ students st = ∅ ->
  exists resp,
    run model get_root st = (Resolved resp, st)
    /\ status resp = 200%Z
    /\ prop (body resp) "students" = JArr sampleStudents.
Proof.
  intros Hst. cbn. unfold find.
  destruct (reach st) as [e |] eqn:Hreach.
  - eexists. repeat split.
  - destruct Hst as [Hst | Hst]; [congruence |].
    rewrite Hst, map_to_list_empty. eexists. repeat split.
Qed.

(** ** The identifier rule *)

(** C2, where the code departs from it: a malformed identifier is answered
    with 400 by GET /students/:id and by PUT /students/:id, and with 500
    by DELETE /students/:id. *)
Theorem malformed_id_statuses (st : store) (id : string) (update : gmap string jsval) :
  valid_object_id id = false ->
  run model (get_student id) st
  = (Resolved {| status := 400; body := error_body "Invalid student ID" |}, st)
  /\ run model (put_student id update) st
     = (Resolved {| status := 400; body := error_body (message id_cast_error) |}, st)
  /\ run model (delete_student id) st
     = (Resolved {| status := 500; body := error_body (message id_cast_error) |}, st).
Proof.
  intros Hid. split; [| split].
  - apply (get_student_rejected model id st id_cast_error).
    apply findById_malformed, Hid.
  - apply (put_student_rejected model id update st id_cast_error).
    apply findByIdAndUpdate_malformed, Hid.
  - apply (delete_student_rejected model id st id_cast_error).
    apply findByIdAndDelete_malformed, Hid.
Qed.

(** ** GET /students/:id *)

(** C5: a malformed identifier is answered with 400 and the invalid-id
    error; on a reachable store a well-formed identifier with no record
    is answered with 404, one with a record with 200 and that Student;
    the handler always answers, and never with 500. *)
Theorem get_by_id_responses (st : store) (id : string) :
  (valid_object_id id = false ->
   run model (get_student id) st
   = (Resolved {| status := 400; body := error_body "Invalid student ID" |}, st))
  /\ (valid_object_id id = true -> available st -> students st !! id = None ->
      run model (get_student id) st = (Resolved not_found, st))
  /\ (forall d, valid_object_id id = true -> available st ->
      students st !! id = Some d ->
      run model (get_student id) st
      = (Resolved {| status := 200; body := JDoc d |}, st))
  /\ (exists resp, run model (get_student id) st = (Resolved resp, st)
      /\ status resp <> 500%Z).
Proof.
  split; [| split; [| split]].
  - intros Hid. apply (get_student_rejected model id st id_cast_error).
    apply findById_malformed, Hid.
  - intros Hid Hst Hnone. apply (get_student_null model).
    cbn. rewrite (findById_lookup _ _ Hid Hst), Hnone. reflexivity.
  - intros d Hid Hst Hsome. apply (get_student_found model).
    cbn. rewrite (findById_lookup _ _ Hid Hst), Hsome. reflexivity.
  - destruct (findById id st) as [[[d |] | e] st'] eqn:Hop.
    + assert (st' = st) as ->.
      { unfold findById in Hop. repeat case_match; congruence. }
      eexists. split; [apply (get_student_found model), Hop | discriminate].
    + assert (st' = st) as ->.
      { unfold findById in Hop. repeat case_match; congruence. }
      eexists. split; [apply (get_student_null model), Hop | discriminate].
    + assert (st' = st) as ->.
      { unfold findById in Hop. repeat case_match; congruence. }
      eexists. split; [apply (get_student_rejected model _ _ e), Hop | discriminate].
Qed.

(** ** DELETE /students/:id *)

(** C8: on a reachable store a well-formed identifier with no record is
    answered with 404; one with a record is answered with 200, a message
    and the Student as it was, the record is gone from the store, the
    other records stay, and a Get of the same identifier is then answered
    with 404; a failure of the collaborator is answered with 500. *)
Theorem delete_responses (st : store) (id : string) :
  (valid_object_id id = true -> available st -> students st !! id = None ->
   run model (delete_student id) st = (Resolved not_found, st))
  /\ (forall d, valid_object_id id = true -> available st ->
      students st !! id = Some d ->
      exists st',
        run model (delete_student id) st
        = (Resolved
             {| status := 200;
                body := JObj [("message", JStr "Student deleted");
                              ("student", JDoc d)] |}, st')
        /\ students st' = delete id (students st)
        /\ students st' !! id = None
        /\ run model (get_student id) st' = (Resolved not_found, st'))
  /\ (forall e, valid_object_id id = true -> reach st = Some e ->
      run model (delete_student id) st
      = (Resolved {| status := 500; body := error_body (message e) |}, st)).
Proof.
  split; [| split].
  - intros Hid Hst Hnone. apply (delete_student_null model).
    cbn. unfold findByIdAndDelete.
    rewrite Hid, (available_reach _ Hst), Hnone. reflexivity.
  - intros d Hid Hst Hsome. eexists. split; [| split; [| split]].
    + apply (delete_student_found model).
      cbn. unfold findByIdAndDelete.
      rewrite Hid, (available_reach _ Hst), Hsome. reflexivity.
    + reflexivity.
    + cbn. apply lookup_delete_eq.
    + apply (get_student_null model). cbn.
      rewrite findById_lookup; [| exact Hid | exact Hst].
      cbn. rewrite lookup_delete_eq. reflexivity.
  - intros e Hid Hst. apply (delete_student_rejected model).
    cbn. unfold findByIdAndDelete. rewrite Hid, Hst. reflexivity.
Qed.
End Store.

(** ** GET / *)

Section AggregateInfo.
Context {St : Type} (c : collaborator St).

(** C9, as the code has it: GET / always answers 200 with the welcome
    and status messages, the connection state read from the collaborator
    when the answer is built (connected exactly when the ready state is
    1), the number of Students of the list it carries, that list, the
    description of the operations and the example payload.  The list is
    the fallback dataset when the fetch fails or finds nothing, and the
    fetched Students otherwise; a failed fetch does not change the
    reported connection state. *)
Theorem aggregate_info_payload (st : St) :
  exists resp students,
    run c get_root st = (Resolved resp, (on_find c st).2)
    /\ status resp = 200%Z
    /\ prop (body resp) "message" = JStr running_message
    /\ prop (body resp) "status" = JStr "Server is active"
    /\ prop (body resp) "database"
       = JStr (if (on_readyState c (on_find c st).2 =? 1)%Z
               then connected_text else disconnected_text)
    /\ prop (body resp) "totalStudents" = JNum (of_nat (length students))
    /\ prop (body resp) "students" = JArr students
    /\ prop (body resp) "endpoints" = endpoints
    /\ prop (body resp) "examplePayload" = examplePayload
    /\ students = match (on_find c st).1 with
                  | Resolved [] | Rejected _ => sampleStudents
                  | Resolved found => JDoc <$> found
                  end.
Proof.
  destruct (on_find c st) as [[[| d found] | e] st'] eqn:Hfind;
    cbn; rewrite Hfind; cbn;
    eexists _, _; repeat split; reflexivity.
Qed.
End AggregateInfo.

(** ** POST /students *)

Lemma Ret_rejects_before_persistence (p : prog response) (msg : string) :
  p = Ret (bad_request msg) -> rejects_before_persistence p msg.
Proof. intros -> St c st. split; reflexivity. Qed.

Lemma Qle_bool_inject_Z (a b : Z) :
  Qle_bool (inject_Z a) (inject_Z b) = (a <=? b)%Z.
Proof. unfold Qle_bool. cbn. rewrite !Z.mul_1_r. reflexivity. Qed.

Section Create.
Context `{Runtime}.

Lemma name_check_string (s : string) :
  name_check (JStr s) = Resolved (String.length s <? 2)%nat.
Proof.
  unfold name_check. destruct s as [| a s]; [reflexivity |].
  change (truthy (JStr (String a s))) with true.
  unfold dot_length, js_lt, ToNumber, obind, num_lt, of_nat, of_Z.
  cbn [negb]. rewrite Qle_bool_inject_Z. f_equal.
  generalize (String.length (String a s)). intros n.
  destruct (Z.leb_spec 2 (Z.of_nat n)), (Nat.ltb_spec n 2);
    cbn; try reflexivity; lia.
Qed.

Lemma age_check_number (q : Q) :
  age_check (JNum (Num q))
  = Resolved (negb (Qle_bool (inject_Z 16) q && Qle_bool q (inject_Z 100))).
Proof.
  unfold age_check. cbn -[Qle_bool Qeq_bool inject_Z].
  destruct (Qeq_bool q 0) eqn:Hzero; cbn -[Qle_bool inject_Z].
  - apply Qeq_bool_iff in Hzero.
    destruct (Qle_bool (inject_Z 16) q) eqn:Hle; [| reflexivity].
    apply Qle_bool_iff in Hle. rewrite Hzero in Hle.
    exfalso. revert Hle. unfold Qle. cbn. lia.
  - unfold js_lt, js_gt. cbn -[Qle_bool inject_Z].
    destruct (Qle_bool (inject_Z 16) q); reflexivity.
Qed.

Lemma course_check_string (s : string) :
  course_check (JStr s) = String.eqb s EmptyString.
Proof. unfold course_check. cbn. apply negb_involutive. Qed.

(** C3, as the code has it: the checks of name, age and course run in
    this order, each one only when the earlier ones passed; the first that
    fails answers 400 with its own message, and the handler then performs
    no operation of the collaborator; an operation is performed only once
    the three checks have passed.  On a name that is a string the check
    fails exactly when the string has fewer than 2 characters, on an age
    that is a number exactly when it lies outside [16, 100] (NaN and the
    infinities fail it), on a course that is a string exactly when it is
    empty, and each check fails on an absent or null field.  On a value
    of another type a check is what the coercions of the language make
    of it, and nothing more is stated here. *)
Theorem create_validation_order (req_body : gmap string jsval) :
  let name := field req_body "name" in
  let age := field req_body "age" in
  let course := field req_body "course" in
  (name_check name = Resolved true ->
   rejects_before_persistence (post_students req_body) name_message)
  /\ (name_check name = Resolved false -> age_check age = Resolved true ->
      rejects_before_persistence (post_students req_body) age_message)
  /\ (name_check name = Resolved false -> age_check age = Resolved false ->
      course_check course = true ->
      rejects_before_persistence (post_students req_body) course_message)
  /\ (forall (St : Type) (c : collaborator St) (st : St),
      calls c (post_students req_body) st <> 0 ->
      name_check name = Resolved false /\ age_check age = Resolved false
      /\ course_check course = false)
  /\ (forall s, name_check (JStr s) = Resolved (String.length s <? 2)%nat)
  /\ (forall q, age_check (JNum (Num q))
                = Resolved (negb (Qle_bool (inject_Z 16) q
                                  && Qle_bool q (inject_Z 100))))
  /\ (forall n, n = NaN \/ n = NegInf \/ n = PosInf ->
                age_check (JNum n) = Resolved true)
  /\ (forall s, course_check (JStr s) = String.eqb s EmptyString)
  /\ (forall key,
      req_body !! key = None \/ req_body !! key = Some JNull ->
      name_check (field req_body key) = Resolved true
      /\ age_check (field req_body key) = Resolved true
      /\ course_check (field req_body key) = true).
Proof.
  intros name age course.
  split.
  { intros Hname. apply Ret_rejects_before_persistence.
    unfold post_students, create_student. fold name. rewrite Hname.
    reflexivity. }
  split.
  { intros Hname Hage. apply Ret_rejects_before_persistence.
    unfold post_students, create_student. fold name age.
    rewrite Hname. cbn. rewrite Hage. reflexivity. }
  split.
  { intros Hname Hage Hcourse. apply Ret_rejects_before_persistence.
    unfold post_students, create_student. fold name age course.
    rewrite Hname. cbn. rewrite Hage. cbn. rewrite Hcourse. reflexivity. }
  split.
  { intros St c st. unfold post_students, create_student. fold name age course.
    destruct (name_check name) as [[|] | e]; cbn; try congruence.
    destruct (age_check age) as [[|] | e]; cbn; try congruence.
    destruct (course_check course); cbn; try congruence.
    intros _. repeat split. }
  split; [apply name_check_string |].
  split; [apply age_check_number |].
  split; [intros n [-> | [-> | ->]]; reflexivity |].
  split; [apply course_check_string |].
  intros key [Hkey | Hkey]; unfold field; rewrite Hkey; cbn;
    (split; [| split]; reflexivity).
Qed.

Lemma create_student_shape (name age course : jsval) (h : error -> prog response) :
  (forall e, exists resp, h e = Ret resp) ->
  (exists resp, try_catch (create_student name age course) h = Ret resp)
  \/ (exists n k,
        ToNumber age = Resolved n
        /\ try_catch (create_student name age course) h
           = Save (new_student name n course) k
        /\ forall r, exists resp, k r = Ret resp).
Proof.
  intros Hh. unfold create_student.
  destruct (name_check name) as [[|] | e]; cbn;
    [left; eexists; reflexivity | | left; apply Hh].
  destruct (age_check age) as [[|] | e]; cbn;
    [left; eexists; reflexivity | | left; apply Hh].
  destruct (course_check course); cbn; [left; eexists; reflexivity |].
  destruct (ToNumber age) as [n | e]; cbn; [| left; apply Hh].
  right. exists n. eexists. split; [reflexivity |]. split; [reflexivity |].
  intros [d | e]; cbn; [eexists; reflexivity | apply Hh].
Qed.

(** C10: POST /students reads the name, age and course of the request
    body and nothing else.  Two bodies that agree on these three fields
    give the same program: the same calls of the collaborator with the
    same arguments and the same answers.  The only operation the handler
    may perform is one save, of an object made of exactly the name, the
    age converted to a number, and the course. *)
Theorem create_ignores_other_fields (req_body : gmap string jsval) :
  (forall other : gmap string jsval,
     other !! "name" = req_body !! "name" ->
     other !! "age" = req_body !! "age" ->
     other !! "course" = req_body !! "course" ->
     post_students other = post_students req_body)
  /\ (forall key v, key <> "name" -> key <> "age" -> key <> "course" ->
      post_students (<[key := v]> req_body) = post_students req_body
      /\ post_students (delete key req_body) = post_students req_body)
  /\ ((exists resp, post_students req_body = Ret resp)
      \/ (exists n k,
            ToNumber (field req_body "age") = Resolved n
            /\ post_students req_body
               = Save (new_student (field req_body "name") n
                         (field req_body "course")) k
            /\ forall r, exists resp, k r = Ret resp)).
Proof.
  assert (Hagree : forall other : gmap string jsval,
             other !! "name" = req_body !! "name" ->
             other !! "age" = req_body !! "age" ->
             other !! "course" = req_body !! "course" ->
             post_students other = post_students req_body).
  { intros other Hname Hage Hcourse. unfold post_students, field.
    rewrite Hname, Hage, Hcourse. reflexivity. }
  split; [exact Hagree |]. split.
  - intros key v Hn Ha Hc. split; apply Hagree;
      solve [apply lookup_insert_ne; assumption
            | apply lookup_delete_ne; assumption].
  - apply create_student_shape. intros e. eexists. reflexivity.
Qed.
End Create.

(** ** Creation against the store *)

Lemma length_append (s1 s2 : string) :
  String.length (s1 ++ s2) = String.length s1 + String.length s2.
Proof. induction s1 as [| a s1 IH]; simpl; [reflexivity | f_equal; exact IH]. Qed.

Lemma list_ascii_of_append (s1 s2 : string) :
  list_ascii_of_string (s1 ++ s2)
  = (list_ascii_of_string s1 ++ list_ascii_of_string s2)%list.
Proof. induction s1 as [| a s1 IH]; simpl; [reflexivity | f_equal; exact IH]. Qed.

Lemma is_hex_hex_digit (n : N) :
  (n < 16)%N -> Mongoose.is_hex (Mongoose.hex_digit n) = true.
Proof.
  intros Hn. unfold Mongoose.hex_digit.
  assert (Hk : N.to_nat n < 16) by lia.
  generalize dependent (N.to_nat n). intros k Hk.
  do 16 (destruct k as [| k]; [reflexivity |]). lia.
Qed.

Lemma hex_of_digits (digits : nat) (n : N) :
  String.length (Mongoose.hex_of digits n) = digits
  /\ forallb Mongoose.is_hex (list_ascii_of_string (Mongoose.hex_of digits n)) = true.
Proof.
  revert n. induction digits as [| d IH]; intros n; [split; reflexivity |].
  destruct (IH (n / 16)%N) as [Hlen Hall]. cbn [Mongoose.hex_of]. split.
  - rewrite length_append, Hlen. cbn. lia.
  - rewrite list_ascii_of_append, forallb_app, Hall.
    cbn [list_ascii_of_string forallb andb].
    rewrite is_hex_hex_digit; [reflexivity |].
    apply N.mod_lt. discriminate.
Qed.

Lemma new_object_id_valid (st : Mongoose.store) :
  Mongoose.valid_object_id (Mongoose.new_object_id st) = true.
Proof.
  unfold Mongoose.valid_object_id, Mongoose.new_object_id.
  destruct (hex_of_digits 24 (Mongoose.issued st)) as [-> ->]. reflexivity.
Qed.

Section CreateStore.
Context `{Runtime}.
Import Mongoose.

Lemma age_check_passed (v : jsval) :
  age_check v = Resolved false -> exists n, ToNumber v = Resolved n.
Proof.
  unfold age_check, js_lt. destruct (truthy v); cbn; [| discriminate].
  destruct (ToNumber v) as [n | e]; cbn; [eauto | discriminate].
Qed.

Lemma validate_name_inr (v : option string) (s : string) :
  validate_name v = inr s -> v = Some s /\ 2 <= String.length s.
Proof.
  unfold validate_name. destruct v as [s' |]; [| discriminate].
  destruct (String.eqb s' EmptyString); [discriminate |].
  destruct (Nat.ltb_spec (String.length s') 2); [discriminate |].
  intros [= ->]. split; [reflexivity | assumption].
Qed.

Lemma validate_age_inr (v : option number) (n : number) :
  validate_age v = inr n ->
  v = Some n /\ num_lt n (of_Z 16) = false /\ num_lt (of_Z 100) n = false.
Proof.
  unfold validate_age. destruct v as [n' |]; [| discriminate].
  destruct (num_lt n' (of_Z 16)) eqn:Hlo; [discriminate |].
  destruct (num_lt (of_Z 100) n') eqn:Hhi; [discriminate |].
  intros [= <-]. repeat split; assumption.
Qed.

Lemma validate_course_inr (v : option string) (s : string) :
  validate_course v = inr s -> v = Some s /\ in_enum s = true.
Proof.
  unfold validate_course. destruct v as [s' |]; [| discriminate].
  destruct (String.eqb s' EmptyString); [discriminate |].
  destruct (in_enum s') eqn:Henum; [| discriminate].
  intros [= <-]. split; [reflexivity | assumption].
Qed.

Lemma check_path_inr {A} (cast : jsval -> outcome (option A))
    (validate : option A -> string + A) (v : jsval) (a : A) :
  check_path cast validate v = inr a ->
  exists o, cast v = Resolved o /\ validate o = inr a.
Proof.
  unfold check_path. destruct (cast v) as [o | e]; [eauto | discriminate].
Qed.

(** What a resolved save tells. *)
Lemma save_resolved (obj : jsval) (st st' : store) (d : document) :
  save obj st = (Resolved d, st') ->
  cast_string (get_prop "name" (props_of obj)) = Resolved (Some (name d))
  /\ 2 <= String.length (name d)
  /\ cast_number (get_prop "age" (props_of obj)) = Resolved (Some (age d))
  /\ num_lt (age d) (of_Z 16) = false
  /\ num_lt (of_Z 100) (age d) = false
  /\ cast_string (get_prop "course" (props_of obj)) = Resolved (Some (course d))
  /\ in_enum (course d) = true
  /\ available st
  /\ _id d = new_object_id st
  /\ students st !! _id d = None
  /\ createdAt d = now st
  /\ updatedAt d = now st
  /\ students st' = <[_id d := d]> (students st).
Proof.
  unfold save. generalize (props_of obj). intros props.
  destruct (check_path cast_string validate_name _) as [m1 | nm] eqn:Hn;
    [intros [=] |].
  destruct (check_path cast_number validate_age _) as [m2 | ag] eqn:Ha;
    [intros [=] |].
  destruct (check_path cast_string validate_course _) as [m3 | co] eqn:Hc;
    [intros [=] |].
  destruct (reach st) eqn:Hreach; [intros [=] |].
  destruct (students st !! new_object_id st) eqn:Hfresh; [intros [=] |].
  intros [= <- <-]. cbn.
  apply check_path_inr in Hn as (o1 & Hc1 & Hv1).
  apply check_path_inr in Ha as (o2 & Hc2 & Hv2).
  apply check_path_inr in Hc as (o3 & Hc3 & Hv3).
  apply validate_name_inr in Hv1 as [-> Hlen].
  apply validate_age_inr in Hv2 as (-> & Hlo & Hhi).
  apply validate_course_inr in Hv3 as [-> Henum].
  repeat split; assumption || reflexivity.
Qed.

Lemma cast_number_of_number (n m : number) :
  cast_number (JNum n) = Resolved (Some m) -> m = n.
Proof. destruct n; cbn; congruence. Qed.

Lemma cast_string_of_string (s t : string) :
  cast_string (JStr s) = Resolved (Some t) -> t = s.
Proof. cbn. congruence. Qed.

Lemma post_students_saves (req_body : gmap string jsval) (n : number)
    (st : store) :
  name_check (field req_body "name") = Resolved false ->
  age_check (field req_body "age") = Resolved false ->
  course_check (field req_body "course") = false ->
  ToNumber (field req_body "age") = Resolved n ->
  run model (post_students req_body) st
  = match save (new_student (field req_body "name") n
                  (field req_body "course")) st with
    | (Resolved d, st') => (Resolved {| status := 201; body := JDoc d |}, st')
    | (Rejected e, st') => (Resolved (bad_request (message e)), st')
    end.
Proof.
  intros Hname Hage Hcourse Hnum. unfold post_students, create_student.
  rewrite Hname. cbn. rewrite Hage. cbn. rewrite Hcourse, Hnum. cbn.
  destruct (save _ st) as [[d | e] st']; reflexivity.
Qed.

(** C6: when the three checks pass and the collaborator accepts the
    save, the answer is 201 with the stored Student: its name and course
    are the ones supplied (as the schema casts them, which leaves a
    string as it is), its age is the supplied age converted to a number,
    and it carries the identifier the collaborator assigned, well formed
    and new to the collection, and the creation and update timestamps. *)
Theorem create_success (req_body : gmap string jsval) (st : store) :
  let vname := field req_body "name" in
  let vage := field req_body "age" in
  let vcourse := field req_body "course" in
  name_check vname = Resolved false ->
  age_check vage = Resolved false ->
  course_check vcourse = false ->
  exists n,
    ToNumber vage = Resolved n
    /\ forall d st',
        save (new_student vname n vcourse) st = (Resolved d, st') ->
        run model (post_students req_body) st
        = (Resolved {| status := 201; body := JDoc d |}, st')
        /\ cast_string vname = Resolved (Some (name d))
        /\ (forall s, vname = JStr s -> name d = s)
        /\ cast_string vcourse = Resolved (Some (course d))
        /\ (forall s, vcourse = JStr s -> course d = s)
        /\ age d = n
        /\ _id d = new_object_id st
        /\ valid_object_id (_id d) = true
        /\ students st !! _id d = None
        /\ createdAt d = now st
        /\ updatedAt d = now st
        /\ students st' = <[_id d := d]> (students st).
Proof.
  intros vname vage vcourse Hname Hage Hcourse.
  destruct (age_check_passed _ Hage) as [n Hnum]. exists n.
  split; [exact Hnum |]. intros d st' Hsave.
  pose proof (post_students_saves req_body n st Hname Hage Hcourse Hnum) as Hrun.
  fold vname vcourse in Hrun. rewrite Hsave in Hrun.
  apply save_resolved in Hsave
    as (Hn & _ & Ha & _ & _ & Hc & _ & _ & Hid & Hfresh & Hcreated & Hupdated & Hst).
  split; [exact Hrun |]. split; [exact Hn |].
  split; [intros s Hs; rewrite Hs in Hn; apply (cast_string_of_string _ _ Hn) |].
  split; [exact Hc |].
  split; [intros s Hs; rewrite Hs in Hc; apply (cast_string_of_string _ _ Hc) |].
  split; [apply (cast_number_of_number _ _ Ha) |].
  split; [exact Hid |].
  split; [rewrite Hid; apply new_object_id_valid |].
  repeat split; assumption.
Qed.

Lemma validation_message_is_generic (detail : string) :
  let msg := "Student validation failed: " ++ detail in
  msg <> name_message /\ msg <> age_message /\ msg <> course_message.
Proof. cbn. repeat split; discriminate. Qed.

(** C4, as the code has it: when the name and the age pass their checks
    and the course is a non-empty string outside the enumerated courses,
    the course check passes as well, the save is rejected by the
    validation of the collaborator, nothing is stored, and the answer is
    400 with the collaborator's validation message, which is none of the
    three messages of the handler. *)
Theorem create_with_unlisted_course (req_body : gmap string jsval)
    (s : string) (st : store) :
  field req_body "course" = JStr s ->
  s <> EmptyString ->
  in_enum s = false ->
  name_check (field req_body "name") = Resolved false ->
  age_check (field req_body "age") = Resolved false ->
  course_check (field req_body "course") = false
  /\ exists n msg,
      ToNumber (field req_body "age") = Resolved n
      /\ save (new_student (field req_body "name") n (JStr s)) st
         = (Rejected (ValidationError msg), st)
      /\ run model (post_students req_body) st
         = (Resolved (bad_request msg), st)
      /\ msg <> name_message /\ msg <> age_message /\ msg <> course_message.
Proof.
  intros Hcourse Hs Henum Hname Hage.
  assert (Hpass : course_check (field req_body "course") = false).
  { rewrite Hcourse, course_check_string. apply String.eqb_neq, Hs. }
  split; [exact Hpass |].
  destruct (age_check_passed _ Hage) as [n Hnum]. exists n.
  pose proof (post_students_saves req_body n st Hname Hage Hpass Hnum) as Hrun.
  rewrite Hcourse in Hrun.
  assert (Hsave : exists detail,
             save (new_student (field req_body "name") n (JStr s)) st
             = (Rejected (ValidationError
                            ("Student validation failed: " ++ detail)), st)).
  { unfold save, new_student.
    cbn [props_of get_prop String.eqb Ascii.eqb Bool.eqb].
    assert (Hc : check_path cast_string validate_course (JStr s)
                 = inl ("`" ++ s ++ "` is not a valid enum value for path `course`.")).
    { unfold check_path, validate_course. cbn [cast_string].
      apply String.eqb_neq in Hs. rewrite Hs, Henum. reflexivity. }
    rewrite Hc.
    destruct (check_path cast_string validate_name _);
      destruct (check_path cast_number validate_age _);
      eexists; reflexivity. }
  destruct Hsave as [detail Hsave]. rewrite Hsave in Hrun.
  eexists. split; [exact Hnum |]. split; [exact Hsave |].
  split; [exact Hrun |]. apply validation_message_is_generic.
Qed.
End CreateStore.

(** ** PUT /students/:id *)

Section UpdateStore.
Context `{Runtime}.
Import Mongoose.

Lemma supplied_settled {A} (cast : jsval -> outcome (option A))
    (validate : option A -> string + A) (v : option jsval)
    (o : option (option A)) (r : option A) :
  cast_supplied cast v = Resolved o ->
  validate_supplied validate o = inr r ->
  settled cast validate v r.
Proof.
  unfold cast_supplied, validate_supplied, settled.
  destruct v as [v |].
  - destruct (cast v) as [o' | e]; cbn; [| discriminate].
    intros [= <-]. destruct (validate o') as [msg | a] eqn:Hv; [discriminate |].
    intros [= <-]. eauto.
  - intros [= <-] [= <-]. reflexivity.
Qed.

Lemma changes_resolved (update : gmap string jsval)
    (n : option string) (a : option number) (c : option string) :
  changes update = Resolved (n, a, c) ->
  settled cast_string validate_name (update !! "name") n
  /\ settled cast_number validate_age (update !! "age") a
  /\ settled cast_string validate_course (update !! "course") c.
Proof.
  unfold changes.
  destruct (cast_supplied cast_string (update !! "name")) as [on | e] eqn:Hn;
    cbn; [| discriminate].
  destruct (cast_supplied cast_number (update !! "age")) as [oa | e] eqn:Ha;
    cbn; [| discriminate].
  destruct (cast_supplied cast_string (update !! "course")) as [oc | e] eqn:Hc;
    cbn; [| discriminate].
  destruct (validate_supplied validate_name on) as [m1 | n'] eqn:Hvn;
    [discriminate |].
  destruct (validate_supplied validate_age oa) as [m2 | a'] eqn:Hva;
    [discriminate |].
  destruct (validate_supplied validate_course oc) as [m3 | c'] eqn:Hvc;
    [discriminate |].
  intros [= <- <- <-].
  split; [| split]; eapply supplied_settled; eassumption.
Qed.

(** The value a path has after an accepted update. *)
Lemma settled_name (v : option jsval) (n : option string) (d : document) :
  settled cast_string validate_name v n ->
  match v with
  | None => default (name d) n = name d
  | Some v => cast_string v = Resolved (Some (default (name d) n))
  end.
Proof.
  destruct v as [v |]; cbn.
  - intros (a & o & -> & Hcast & Hval).
    apply validate_name_inr in Hval as [-> _]. exact Hcast.
  - intros ->. reflexivity.
Qed.

Lemma settled_age (v : option jsval) (a : option number) (d : document) :
  settled cast_number validate_age v a ->
  match v with
  | None => default (age d) a = age d
  | Some v => cast_number v = Resolved (Some (default (age d) a))
  end.
Proof.
  destruct v as [v |]; cbn.
  - intros (n & o & -> & Hcast & Hval).
    apply validate_age_inr in Hval as (-> & _ & _). exact Hcast.
  - intros ->. reflexivity.
Qed.

Lemma settled_course (v : option jsval) (c : option string) (d : document) :
  settled cast_string validate_course v c ->
  match v with
  | None => default (course d) c = course d
  | Some v => cast_string v = Resolved (Some (default (course d) c))
  end.
Proof.
  destruct v as [v |]; cbn.
  - intros (a & o & -> & Hcast & Hval).
    apply validate_course_inr in Hval as [-> _]. exact Hcast.
  - intros ->. reflexivity.
Qed.

(** C7: a malformed identifier, and an update the collaborator rejects
    when it casts and validates the supplied fields, are answered with
    400 and the collaborator's message; on a reachable store an accepted
    update of a well-formed identifier with no record is answered with
    404, and one of an identifier with a record with 200 and the updated
    Student, which replaces the record in the store: each supplied field
    has its new value, each field left out keeps the value it had, the
    identifier and the creation time are kept, and the update time is
    the time of the update. *)
Theorem update_responses (st : store) (id : string)
    (update : gmap string jsval) :
  (valid_object_id id = false ->
   run model (put_student id update) st
   = (Resolved (bad_request (message id_cast_error)), st))
  /\ (forall e, valid_object_id id = true -> changes update = Rejected e ->
      run model (put_student id update) st
      = (Resolved (bad_request (message e)), st))
  /\ (forall ch, valid_object_id id = true -> changes update = Resolved ch ->
      available st -> students st !! id = None ->
      run model (put_student id update) st = (Resolved not_found, st))
  /\ (forall ch d, valid_object_id id = true -> changes update = Resolved ch ->
      available st -> students st !! id = Some d ->
      exists d' st',
        run model (put_student id update) st
        = (Resolved {| status := 200; body := JDoc d' |}, st')
        /\ students st' = <[id := d']> (students st)
        /\ _id d' = _id d
        /\ createdAt d' = createdAt d
        /\ updatedAt d' = now st
        /\ match update !! "name" with
           | None => name d' = name d
           | Some v => cast_string v = Resolved (Some (name d'))
           end
        /\ match update !! "age" with
           | None => age d' = age d
           | Some v => cast_number v = Resolved (Some (age d'))
           end
        /\ match update !! "course" with
           | None => course d' = course d
           | Some v => cast_string v = Resolved (Some (course d'))
           end).
Proof.
  split; [| split; [| split]].
  - intros Hid. apply (put_student_rejected model).
    apply findByIdAndUpdate_malformed, Hid.
  - intros e Hid Hch. apply (put_student_rejected model).
    cbn. unfold findByIdAndUpdate. rewrite Hid, Hch. reflexivity.
  - intros ch Hid Hch Hst Hnone. apply (put_student_null model).
    cbn. unfold findByIdAndUpdate.
    rewrite Hid, Hch, (available_reach _ Hst), Hnone. reflexivity.
  - intros [[n a] c] d Hid Hch Hst Hsome.
    exists (apply_changes (n, a, c) (now st) d). eexists.
    split.
    { apply (put_student_found model). cbn. unfold findByIdAndUpdate.
      rewrite Hid, Hch, (available_reach _ Hst), Hsome. reflexivity. }
    apply changes_resolved in Hch as (Hn & Ha & Hc).
    repeat (split; [reflexivity |]).
    split; [apply (settled_name _ _ d Hn) |].
    split; [apply (settled_age _ _ d Ha) | apply (settled_course _ _ d Hc)].
Qed.
End UpdateStore.

(** ** The invariant of the collection *)

Section Invariant.
Context `{Runtime}.
Import Mongoose.



Lemma save_rejected (obj : jsval) (st st' : store) (e : error) :
  save obj st = (Rejected e, st') -> st' = st.
Proof. unfold save. repeat case_match; congruence. Qed.





Lemma find_unchanged (st st' : store) (r : outcome (list document)) :
  find st = (r, st') -> st' = st.
Proof. unfold find. destruct (reach st); congruence. Qed.

Lemma findById_unchanged (id : string) (st st' : store)
    (r : outcome (option document)) :
  findById id st = (r, st') -> st' = st.
Proof. unfold findById. repeat case_match; congruence. Qed.

End Invariant.

(** * The properties on concrete requests *)

Section Concrete.
#[local] Existing Instance Examples.runtime.
Import Mongoose Examples.

(** With the connection closed both read paths answer 200 with the three
    fallback Students. *)
Example reads_of_closed_connection :
  run model get_students offline_store
  = (Resolved {| status := 200; body := JArr sampleStudents |}, offline_store)
  /\ exists resp,
      run model get_root offline_store = (Resolved resp, offline_store)
      /\ status resp = 200%Z
      /\ prop (body resp) "students" = JArr sampleStudents
      /\ prop (body resp) "totalStudents" = JNum (of_Z 3)
      /\ prop (body resp) "database" = JStr disconnected_text.
Proof. split; [reflexivity |]. eexists. repeat split. Qed.

Lemma malformed_id_statuses_witness :
  valid_object_id "not-an-id" = false
  /\ run model (delete_student "not-an-id") dana_store
     = (Resolved {| status := 500; body := error_body (message id_cast_error) |},
        dana_store).
Proof.
  split; [reflexivity |].
  apply (malformed_id_statuses dana_store "not-an-id" ∅). reflexivity.
Defined.

Lemma create_validation_order_witness :
  rejects_before_persistence (post_students short_name) name_message
  /\ rejects_before_persistence (post_students too_young) age_message
  /\ rejects_before_persistence (post_students no_course) course_message.
Proof.
  split; [| split].
  - apply (create_validation_order short_name). reflexivity.
  - apply (create_validation_order too_young); reflexivity.
  - apply (create_validation_order no_course); reflexivity.
Defined.

(** C3 as stated fails: the age is the text [abc], which is no number in
    [16, 100], yet the age check passes, the handler calls the
    collaborator, and the answer carries the collaborator's message, not
    the handler's message about the age. *)
Lemma non_numeric_age_passes_the_age_check :
  field Scenarios.unreadable_age "age" = JStr "abc"
  /\ ToNumber (JStr "abc") = Resolved NaN
  /\ age_check (field Scenarios.unreadable_age "age") = Resolved false
  /\ calls model (post_students Scenarios.unreadable_age) empty_store = 1
  /\ run model (post_students Scenarios.unreadable_age) empty_store
     = (Resolved
          (bad_request "Student validation failed: age: Cast to Number failed"),
        empty_store)
  /\ "Student validation failed: age: Cast to Number failed" <> age_message.
Proof. repeat split. discriminate. Qed.

(** C4 as stated fails: the course is a non-empty string outside the
    enumerated courses, yet the name check does not pass and the answer
    carries the handler's message about the name. *)
Lemma unlisted_course_with_short_name :
  field short_name "course" = JStr "Astrology"
  /\ in_enum "Astrology" = false
  /\ name_check (field short_name "name") = Resolved true
  /\ run model (post_students short_name) empty_store
     = (Resolved (bad_request name_message), empty_store).
Proof. repeat split. Qed.

Lemma create_with_unlisted_course_witness :
  exists msg,
    run model (post_students unlisted_course) empty_store
    = (Resolved (bad_request msg), empty_store)
    /\ msg <> name_message /\ msg <> age_message /\ msg <> course_message.
Proof.
  destruct (create_with_unlisted_course unlisted_course "Astrology" empty_store)
    as (_ & n & msg & _ & _ & Hrun & Hmsg);
    [reflexivity | discriminate | reflexivity | reflexivity | reflexivity |].
  exists msg. split; [exact Hrun | exact Hmsg].
Defined.

Lemma get_by_id_responses_witness :
  run model (get_student "not-an-id") dana_store
  = (Resolved {| status := 400; body := error_body "Invalid student ID" |},
     dana_store)
  /\ run model (get_student absent_id) dana_store
     = (Resolved not_found, dana_store)
  /\ run model (get_student dana_id) dana_store
     = (Resolved {| status := 200; body := JDoc dana_doc |}, dana_store).
Proof.
  split; [| split].
  - apply (get_by_id_responses dana_store "not-an-id"). reflexivity.
  - apply (get_by_id_responses dana_store absent_id); reflexivity.
  - apply (get_by_id_responses dana_store dana_id); reflexivity.
Defined.

Lemma create_success_witness :
  run model (post_students dana) empty_store
  = (Resolved {| status := 201; body := JDoc dana_doc |}, dana_store).
Proof.
  destruct (create_success dana empty_store) as (n & Hnum & Hsaved);
    [reflexivity | reflexivity | reflexivity |].
  assert (n = of_Z 21) as ->
    by (vm_compute in Hnum; injection Hnum as <-; reflexivity).
  apply (Hsaved dana_doc dana_store). reflexivity.
Defined.

Lemma update_responses_witness :
  exists d' st',
    run model (put_student dana_id age_25) dana_store
    = (Resolved {| status := 200; body := JDoc d' |}, st')
    /\ age d' = of_Z 25
    /\ name d' = "Dana Kim"
    /\ course d' = "Civil Engineering".
Proof.
  destruct (update_responses dana_store dana_id age_25)
    as (_ & _ & _ & Hfound).
  destruct (Hfound (None, Some (of_Z 25), None) dana_doc)
    as (d' & st' & Hrun & _ & _ & _ & _ & Hname & Hage & Hcourse);
    [reflexivity | reflexivity | reflexivity | reflexivity |].
  exists d', st'. split; [exact Hrun |].
  split; [| split].
  - cbn in Hage. injection Hage as Hage. symmetry. exact Hage.
  - exact Hname.
  - exact Hcourse.
Defined.

Lemma delete_responses_witness :
  exists st',
    run model (delete_student dana_id) dana_store
    = (Resolved
         {| status := 200;
            body := JObj [("message", JStr "Student deleted");
                          ("student", JDoc dana_doc)] |}, st')
    /\ run model (get_student dana_id) st' = (Resolved not_found, st').
Proof.
  destruct (delete_responses dana_store dana_id) as (_ & Hfound & _).
  destruct (Hfound dana_doc) as (st' & Hrun & _ & _ & Hget);
    [reflexivity | reflexivity | reflexivity |].
  exists st'. split; [exact Hrun | exact Hget].
Defined.

(** C9 as stated fails: the fetch is rejected by a server whose
    connection is open, GET / answers with the fallback dataset, and it
    reports the connection as connected. *)
Lemma aggregate_info_connected_on_listing_error :
  (find refusing_store).1
  = Rejected (MongooseError "not authorized on studentdb to execute command")
  /\ exists resp,
      run model get_root refusing_store = (Resolved resp, refusing_store)
      /\ status resp = 200%Z
      /\ prop (body resp) "students" = JArr sampleStudents
      /\ prop (body resp) "database" = JStr connected_text
      /\ connected_text <> disconnected_text.
Proof.
  split; [reflexivity |]. eexists. split; [reflexivity |].
  repeat split. discriminate.
Qed.

Lemma create_ignores_other_fields_witness :
  post_students dana_with_extras = post_students dana
  /\ run model (post_students dana_with_extras) empty_store
     = (Resolved {| status := 201; body := JDoc dana_doc |}, dana_store).
Proof.
  assert (Hsame : post_students dana_with_extras = post_students dana).
  { destruct (create_ignores_other_fields dana) as [Hagree _].
    apply Hagree; vm_compute; reflexivity. }
  split; [exact Hsame |]. rewrite Hsame. reflexivity.
Defined.
End Concrete.

(** * Further properties of the handlers *)

(** ** Under every collaborator *)

Section Surface.
Context `{Runtime} {St : Type} (c : collaborator St).

Lemma error_answer_intro (code : Z) (msg : string) :
  error_answer {| status := code; body := error_body msg |} code.
Proof. split; [reflexivity | exists msg; reflexivity]. Qed.

(** X1: no handler lets an error escape, whatever the collaborator does:
    each request is answered, GET /students and GET / with 200, GET
    /students/:id with 200 and a document or an error body under 404 or
    400, POST /students with 201 and a document or an error body under
    400, PUT /students/:id with 200 and a document or an error body under
    404 or 400, DELETE /students/:id with 200 or an error body under 404
    or 500. *)
Theorem handlers_always_answer (st : St) (id : string)
    (req_body : gmap string jsval) :
  (exists r st', run c get_students st = (Resolved r, st')
                 /\ status r = 200%Z)
  /\ (exists r st', run c (get_student id) st = (Resolved r, st')
      /\ ((status r = 200%Z /\ exists d, body r = JDoc d)
          \/ error_answer r 404 \/ error_answer r 400))
  /\ (exists r st', run c (post_students req_body) st = (Resolved r, st')
      /\ ((status r = 201%Z /\ exists d, body r = JDoc d)
          \/ error_answer r 400))
  /\ (exists r st', run c (put_student id req_body) st = (Resolved r, st')
      /\ ((status r = 200%Z /\ exists d, body r = JDoc d)
          \/ error_answer r 404 \/ error_answer r 400))
  /\ (exists r st', run c (delete_student id) st = (Resolved r, st')
      /\ ((status r = 200%Z /\ exists d, prop (body r) "student" = JDoc d)
          \/ error_answer r 404 \/ error_answer r 500))
  /\ (exists r st', run c get_root st = (Resolved r, st')
      /\ status r = 200%Z).
Proof.
  split; [apply get_students_always_200 |].
  split.
  { destruct (on_findById c id st) as [[[d |] | e] st'] eqn:Hop.
    - eexists _, _. split; [apply get_student_found, Hop |]. left. eauto.
    - eexists _, _. split; [apply get_student_null, Hop |].
      right. left. apply error_answer_intro.
    - eexists _, _. split; [apply (get_student_rejected _ _ _ e), Hop |].
      right. right. apply error_answer_intro. }
  split.
  { unfold post_students, create_student.
    destruct (name_check _) as [[|] | e]; cbn;
      try (eexists _, _; split; [reflexivity | right; apply error_answer_intro]).
    destruct (age_check _) as [[|] | e]; cbn;
      try (eexists _, _; split; [reflexivity | right; apply error_answer_intro]).
    destruct (course_check _); cbn;
      try (eexists _, _; split; [reflexivity | right; apply error_answer_intro]).
    destruct (ToNumber _) as [n | e]; cbn;
      try (eexists _, _; split; [reflexivity | right; apply error_answer_intro]).
    destruct (on_save c _ st) as [[d | e] st']; cbn.
    - eexists _, _. split; [reflexivity |]. left. eauto.
    - eexists _, _. split; [reflexivity |]. right. apply error_answer_intro. }
  split.
  { destruct (on_findByIdAndUpdate c id req_body st) as [[[d |] | e] st'] eqn:Hop.
    - eexists _, _. split; [apply put_student_found, Hop |]. left. eauto.
    - eexists _, _. split; [apply put_student_null, Hop |].
      right. left. apply error_answer_intro.
    - eexists _, _. split; [apply (put_student_rejected _ _ _ _ e), Hop |].
      right. right. apply error_answer_intro. }
  split.
  { destruct (on_findByIdAndDelete c id st) as [[[d |] | e] st'] eqn:Hop.
    - eexists _, _. split; [apply delete_student_found, Hop |]. left.
      split; [reflexivity | exists d; reflexivity].
    - eexists _, _. split; [apply delete_student_null, Hop |].
      right. left. apply error_answer_intro.
    - eexists _, _. split; [apply (delete_student_rejected _ _ _ e), Hop |].
      right. right. apply error_answer_intro. }
  cbn. destruct (on_find c st) as [[[| d found] | e] st']; cbn;
    eexists _, _; split; reflexivity.
Qed.

(** X2: a request costs one operation of the collaborator, the one of its
    route, whatever that operation answers: nothing is retried, a read
    route writes nothing, and POST /students either performs no operation
    or one save of the object made of the name, the converted age and the
    course. *)
Theorem one_operation_per_request (st : St) (id : string)
    (req_body : gmap string jsval) :
  trace c get_students st = [OpFind]
  /\ trace c (get_student id) st = [OpFindById id]
  /\ trace c (put_student id req_body) st = [OpFindByIdAndUpdate id req_body]
  /\ trace c (delete_student id) st = [OpFindByIdAndDelete id]
  /\ trace c get_root st = [OpFind]
  /\ (trace c (post_students req_body) st = []
      \/ exists n,
          ToNumber (field req_body "age") = Resolved n
          /\ trace c (post_students req_body) st
             = [OpSave (new_student (field req_body "name") n
                          (field req_body "course"))]).
Proof.
  split. { cbn. destruct (on_find c st) as [[found | e] st']; reflexivity. }
  split. { cbn. destruct (on_findById c id st) as [[[d |] | e] st']; reflexivity. }
  split.
  { cbn. destruct (on_findByIdAndUpdate c id req_body st) as [[[d |] | e] st'];
      reflexivity. }
  split.
  { cbn. destruct (on_findByIdAndDelete c id st) as [[[d |] | e] st'];
      reflexivity. }
  split.
  { cbn. destruct (on_find c st) as [[[| d found] | e] st']; reflexivity. }
  unfold post_students, create_student.
  destruct (name_check _) as [[|] | e]; cbn; try (left; reflexivity).
  destruct (age_check _) as [[|] | e]; cbn; try (left; reflexivity).
  destruct (course_check _); cbn; try (left; reflexivity).
  destruct (ToNumber _) as [n | e]; cbn; try (left; reflexivity).
  right. exists n. split; [reflexivity |].
  destruct (on_save c _ st) as [[d | e] st']; reflexivity.
Qed.

(** X3: GET / and GET /students start from the same fetch: the list GET /
    carries is the list GET /students answers with, except that an empty
    list is replaced by the fallback dataset; so GET / never carries an
    empty list and never counts zero Students. *)
Theorem root_list_against_students_list (st : St) :
  exists listed shown,
    (run c get_students st).1
    = Resolved {| status := 200; body := JArr listed |}
    /\ (exists r, (run c get_root st).1 = Resolved r
        /\ prop (body r) "students" = JArr shown
        /\ prop (body r) "totalStudents" = JNum (of_nat (length shown)))
    /\ shown = (if (length listed =? 0)%nat then sampleStudents else listed)
    /\ 0 < length shown.
Proof.
  cbn. destruct (on_find c st) as [[[| d found] | e] st']; cbn.
  - exists [], sampleStudents. repeat split; eauto. cbn. lia.
  - exists (JDoc d :: (JDoc <$> found)), (JDoc d :: (JDoc <$> found)).
    repeat split; eauto. cbn. lia.
  - exists sampleStudents, sampleStudents. repeat split; eauto. cbn. lia.
Qed.
End Surface.

(** ** Against the store *)

Section Lifecycle.
Context `{Runtime}.
Import Mongoose.

(** *** What the operations leave and what their answers tell *)

Lemma reach_of_connection (st st' : store) :
  readyState st' = readyState st -> fault st' = fault st ->
  reach st' = reach st.
Proof. intros Hready Hfault. unfold reach. rewrite Hready, Hfault. reflexivity. Qed.

Lemma save_reach (obj : jsval) (st st' : store) (r : outcome document) :
  save obj st = (r, st') -> reach st' = reach st.
Proof.
  intros Hop. apply reach_of_connection; revert Hop; unfold save;
    repeat case_match; intros [= _ <-]; reflexivity.
Qed.

Lemma findByIdAndUpdate_reach (id : string) (update : gmap string jsval)
    (st st' : store) (r : outcome (option document)) :
  findByIdAndUpdate id update st = (r, st') -> reach st' = reach st.
Proof.
  intros Hop. apply reach_of_connection; revert Hop; unfold findByIdAndUpdate;
    repeat case_match; intros [= _ <-]; reflexivity.
Qed.

Lemma findByIdAndDelete_reach (id : string) (st st' : store)
    (r : outcome (option document)) :
  findByIdAndDelete id st = (r, st') -> reach st' = reach st.
Proof.
  intros Hop. apply reach_of_connection; revert Hop; unfold findByIdAndDelete;
    repeat case_match; intros [= _ <-]; reflexivity.
Qed.

Lemma findByIdAndUpdate_some (id : string) (update : gmap string jsval)
    (st st' : store) (d' : document) :
  findByIdAndUpdate id update st = (Resolved (Some d'), st') ->
  valid_object_id id = true /\ available st
  /\ exists ch d,
      changes update = Resolved ch /\ students st !! id = Some d
      /\ d' = apply_changes ch (now st) d
      /\ students st' = <[id := d']> (students st).
Proof.
  unfold findByIdAndUpdate.
  destruct (valid_object_id id); cbn; [| discriminate].
  destruct (changes update) as [ch | e]; [| discriminate].
  destruct (reach st) eqn:Hreach; [discriminate |].
  destruct (students st !! id) as [d |] eqn:Hd; [| discriminate].
  intros [= <- <-]. repeat split; [exact Hreach |]. exists ch, d. repeat split.
Qed.

Lemma findByIdAndUpdate_other (id : string) (update : gmap string jsval)
    (st st' : store) (r : outcome (option document)) :
  findByIdAndUpdate id update st = (r, st') ->
  (forall d, r <> Resolved (Some d)) -> st' = st.
Proof.
  unfold findByIdAndUpdate. repeat case_match; intros [= <- <-] Hr;
    solve [reflexivity | exfalso; eapply Hr; reflexivity].
Qed.

Lemma findByIdAndDelete_some (id : string) (st st' : store) (d : document) :
  findByIdAndDelete id st = (Resolved (Some d), st') ->
  valid_object_id id = true /\ available st /\ students st !! id = Some d
  /\ students st' = delete id (students st).
Proof.
  unfold findByIdAndDelete.
  destruct (valid_object_id id); cbn; [| discriminate].
  destruct (reach st) eqn:Hreach; [discriminate |].
  destruct (students st !! id) as [d0 |] eqn:Hd; [| discriminate].
  intros [= <- <-]. repeat split. exact Hreach.
Qed.

Lemma findByIdAndDelete_other (id : string) (st st' : store)
    (r : outcome (option document)) :
  findByIdAndDelete id st = (r, st') ->
  (forall d, r <> Resolved (Some d)) -> st' = st.
Proof.
  unfold findByIdAndDelete. repeat case_match; intros [= <- <-] Hr;
    solve [reflexivity | exfalso; eapply Hr; reflexivity].
Qed.

(** POST /students either answers 400 at once, or saves. *)
Lemma post_students_cases (req_body : gmap string jsval) (st : store) :
  (exists msg,
      run model (post_students req_body) st = (Resolved (bad_request msg), st))
  \/ (exists n,
        ToNumber (field req_body "age") = Resolved n
        /\ run model (post_students req_body) st
           = match save (new_student (field req_body "name") n
                           (field req_body "course")) st with
             | (Resolved d, st') =>
                 (Resolved {| status := 201; body := JDoc d |}, st')
             | (Rejected e, st') => (Resolved (bad_request (message e)), st')
             end).
Proof.
  destruct (name_check (field req_body "name")) as [[|] | e] eqn:Hname;
    [left | | left];
    try (unfold post_students, create_student; rewrite Hname;
         eexists; reflexivity).
  destruct (age_check (field req_body "age")) as [[|] | e] eqn:Hage;
    [left | | left];
    try (unfold post_students, create_student; rewrite Hname; cbn;
         rewrite Hage; eexists; reflexivity).
  destruct (course_check (field req_body "course")) eqn:Hcourse.
  { left. unfold post_students, create_student. rewrite Hname. cbn.
    rewrite Hage. cbn. rewrite Hcourse. eexists. reflexivity. }
  destruct (age_check_passed _ Hage) as [n Hnum].
  right. exists n. split; [exact Hnum |].
  apply post_students_saves; assumption.
Qed.

Lemma post_students_created (req_body : gmap string jsval) (st st' : store)
    (r : response) :
  run model (post_students req_body) st = (Resolved r, st') ->
  status r = 201%Z ->
  exists d n,
    r = {| status := 201; body := JDoc d |}
    /\ ToNumber (field req_body "age") = Resolved n
    /\ save (new_student (field req_body "name") n (field req_body "course")) st
       = (Resolved d, st').
Proof.
  intros Hrun Hstatus.
  destruct (post_students_cases req_body st) as [[msg Hbad] | (n & Hnum & Hsave)].
  - rewrite Hbad in Hrun. injection Hrun as <- _. discriminate.
  - rewrite Hsave in Hrun.
    destruct (save _ st) as [[d | e] st0] eqn:Hop.
    + injection Hrun as <- <-. exists d, n. repeat split; assumption.
    + injection Hrun as <- _. discriminate.
Qed.

Lemma post_students_refused (req_body : gmap string jsval) (st st' : store)
    (r : response) :
  run model (post_students req_body) st = (Resolved r, st') ->
  status r <> 201%Z -> st' = st.
Proof.
  intros Hrun Hstatus.
  destruct (post_students_cases req_body st) as [[msg Hbad] | (n & Hnum & Hsave)].
  - rewrite Hbad in Hrun. injection Hrun as _ <-. reflexivity.
  - rewrite Hsave in Hrun.
    destruct (save _ st) as [[d | e] st0] eqn:Hop.
    + injection Hrun as <- _. contradiction Hstatus. reflexivity.
    + injection Hrun as _ <-. apply (save_rejected _ _ _ _ Hop).
Qed.

Lemma put_student_updated (id : string) (update : gmap string jsval)
    (st st' : store) (r : response) :
  run model (put_student id update) st = (Resolved r, st') ->
  status r = 200%Z ->
  exists d',
    r = {| status := 200; body := JDoc d' |}
    /\ findByIdAndUpdate id update st = (Resolved (Some d'), st').
Proof.
  intros Hrun Hstatus.
  destruct (findByIdAndUpdate id update st) as [[[d' |] | e] st0] eqn:Hop.
  - rewrite (put_student_found model _ _ _ _ _ Hop) in Hrun.
    injection Hrun as <- <-. exists d'. split; reflexivity.
  - rewrite (put_student_null model _ _ _ _ Hop) in Hrun.
    injection Hrun as <- _. discriminate.
  - rewrite (put_student_rejected model _ _ _ _ _ Hop) in Hrun.
    injection Hrun as <- _. discriminate.
Qed.

Lemma delete_student_deleted (id : string) (st st' : store) (r : response) :
  run model (delete_student id) st = (Resolved r, st') ->
  status r = 200%Z ->
  exists d,
    r = {| status := 200;
           body := JObj [("message", JStr "Student deleted");
                         ("student", JDoc d)] |}
    /\ findByIdAndDelete id st = (Resolved (Some d), st').
Proof.
  intros Hrun Hstatus.
  destruct (findByIdAndDelete id st) as [[[d |] | e] st0] eqn:Hop.
  - rewrite (delete_student_found model _ _ _ _ Hop) in Hrun.
    injection Hrun as <- <-. exists d. split; reflexivity.
  - rewrite (delete_student_null model _ _ _ Hop) in Hrun.
    injection Hrun as <- _. discriminate.
  - rewrite (delete_student_rejected model _ _ _ _ Hop) in Hrun.
    injection Hrun as <- _. discriminate.
Qed.
Lemma save_unreachable (obj : jsval) (st : store) (e : error) :
  reach st = Some e -> exists e', save obj st = (Rejected e', st).
Proof.
  intros Hreach. unfold save. rewrite Hreach.
  repeat case_match; eexists; reflexivity.
Qed.

Lemma findByIdAndUpdate_unreachable (id : string) (update : gmap string jsval)
    (st : store) (e : error) :
  reach st = Some e ->
  exists e', findByIdAndUpdate id update st = (Rejected e', st).
Proof.
  intros Hreach. unfold findByIdAndUpdate. rewrite Hreach.
  repeat case_match; eexists; reflexivity.
Qed.

Lemma findByIdAndDelete_unreachable (id : string) (st : store) (e : error) :
  reach st = Some e ->
  exists e', findByIdAndDelete id st = (Rejected e', st).
Proof.
  intros Hreach. unfold findByIdAndDelete. rewrite Hreach.
  repeat case_match; eexists; reflexivity.
Qed.

(** *** Reads *)

(** X4: the three read routes leave the store as it is, so whatever
    request follows a read is answered as if the read had not happened;
    in particular a repeated Get by id gives the same answer. *)
Theorem reads_leave_the_store (st : store) (id : string) :
  (run model get_students st).2 = st
  /\ (run model (get_student id) st).2 = st
  /\ (run model get_root st).2 = st
  /\ (forall (A : Type) (p : prog A),
        run model p (run model get_students st).2 = run model p st
        /\ run model p (run model (get_student id) st).2 = run model p st
        /\ run model p (run model get_root st).2 = run model p st)
  /\ run model (get_student id) (run model (get_student id) st).2
     = run model (get_student id) st.
Proof.
  assert (Hlist : (run model get_students st).2 = st).
  { cbn. destruct (find st) as [[found | e] st'] eqn:Hop;
      apply find_unchanged in Hop as ->; reflexivity. }
  assert (Hget : (run model (get_student id) st).2 = st).
  { cbn. destruct (findById id st) as [[[d |] | e] st'] eqn:Hop;
      apply findById_unchanged in Hop as ->; reflexivity. }
  assert (Hroot : (run model get_root st).2 = st).
  { cbn. destruct (find st) as [[[| d found] | e] st'] eqn:Hop;
      apply find_unchanged in Hop as ->; reflexivity. }
  split; [exact Hlist |]. split; [exact Hget |]. split; [exact Hroot |].
  split; [| rewrite Hget; reflexivity].
  intros A p. rewrite Hlist, Hget, Hroot. repeat split.
Qed.

(** *** Round trips *)

(** X5: a Student that POST /students answered with under 201 can be read
    back: Get by its identifier answers 200 with the same document, and
    GET /students lists it. *)
Theorem created_student_is_readable (req_body : gmap string jsval)
    (st st' : store) (r : response) :
  run model (post_students req_body) st = (Resolved r, st') ->
  status r = 201%Z ->
  exists d,
    body r = JDoc d
    /\ run model (get_student (_id d)) st'
       = (Resolved {| status := 200; body := JDoc d |}, st')
    /\ exists listed,
        run model get_students st'
        = (Resolved {| status := 200; body := JArr listed |}, st')
        /\ JDoc d ∈ listed.
Proof.
  intros Hrun Hstatus.
  destruct (post_students_created _ _ _ _ Hrun Hstatus) as (d & n & -> & _ & Hsave).
  pose proof (save_reach _ _ _ _ Hsave) as Hreach.
  apply save_resolved in Hsave
    as (_ & _ & _ & _ & _ & _ & _ & Hst & Hid & _ & _ & _ & Hst').
  assert (Hst0 : available st') by (unfold available; rewrite Hreach; exact Hst).
  assert (Hd : students st' !! _id d = Some d)
    by (rewrite Hst'; apply lookup_insert_eq).
  exists d. split; [reflexivity |]. split.
  - apply (get_student_found model). cbn.
    rewrite findById_lookup; [rewrite Hd; reflexivity | | exact Hst0].
    rewrite Hid. apply new_object_id_valid.
  - eexists. split.
    + apply (get_students_resolved model). cbn. apply find_available, Hst0.
    + apply list_elem_of_fmap_2, list_elem_of_fmap. exists (_id d, d).
      split; [reflexivity |]. apply elem_of_map_to_list, Hd.
Qed.

(** X6: after PUT /students/:id answered 200, a Get of the same identifier
    gives the very same answer. *)
Theorem updated_student_is_readable (id : string) (update : gmap string jsval)
    (st st' : store) (r : response) :
  run model (put_student id update) st = (Resolved r, st') ->
  status r = 200%Z ->
  run model (get_student id) st' = (Resolved r, st').
Proof.
  intros Hrun Hstatus.
  destruct (put_student_updated _ _ _ _ _ Hrun Hstatus) as (d' & -> & Hop).
  pose proof (findByIdAndUpdate_reach _ _ _ _ _ Hop) as Hreach.
  apply findByIdAndUpdate_some in Hop as (Hid & Hst & ch & d & _ & _ & _ & Hst').
  apply (get_student_found model). cbn.
  rewrite findById_lookup;
    [| exact Hid | unfold available; rewrite Hreach; exact Hst].
  rewrite Hst', lookup_insert_eq. reflexivity.
Qed.

(** X7: DELETE /students/:id answers 200 with the document a Get of the
    identifier answered with just before, and a record is deleted once:
    the same DELETE repeated, and a Get, are answered with 404. *)
Theorem deleted_student_is_gone (id : string) (st st' : store) (r : response) :
  run model (delete_student id) st = (Resolved r, st') ->
  status r = 200%Z ->
  exists d,
    prop (body r) "student" = JDoc d
    /\ run model (get_student id) st
       = (Resolved {| status := 200; body := JDoc d |}, st)
    /\ run model (delete_student id) st' = (Resolved not_found, st')
    /\ run model (get_student id) st' = (Resolved not_found, st').
Proof.
  intros Hrun Hstatus.
  destruct (delete_student_deleted _ _ _ _ Hrun Hstatus) as (d & -> & Hop).
  pose proof (findByIdAndDelete_reach _ _ _ _ Hop) as Hreach.
  apply findByIdAndDelete_some in Hop as (Hid & Hst & Hd & Hst').
  assert (Hst0 : reach st' = None) by (rewrite Hreach; exact Hst).
  assert (Hgone : students st' !! id = None)
    by (rewrite Hst'; apply lookup_delete_eq).
  exists d. split; [reflexivity |]. split; [| split].
  - apply (get_student_found model). cbn.
    rewrite findById_lookup; [rewrite Hd; reflexivity | exact Hid | exact Hst].
  - apply (delete_student_null model). cbn. unfold findByIdAndDelete.
    rewrite Hid, Hst0, Hgone. reflexivity.
  - apply (get_student_null model). cbn.
    rewrite findById_lookup; [rewrite Hgone; reflexivity | exact Hid | exact Hst0].
Qed.

(** *** What a request can change *)

(** X8: a write request that is not answered with success leaves the store
    exactly as it was; POST /students keeps every record there was; PUT
    /students/:id neither adds nor removes a record; PUT and DELETE leave
    the records of the other identifiers alone. *)
Theorem requests_change_only_their_record (st : store) (id : string)
    (req_body : gmap string jsval) :
  (forall r st', run model (post_students req_body) st = (Resolved r, st') ->
     (status r <> 201%Z -> st' = st)
     /\ forall k d, students st !! k = Some d -> students st' !! k = Some d)
  /\ (forall r st', run model (put_student id req_body) st = (Resolved r, st') ->
      (status r <> 200%Z -> st' = st)
      /\ dom (students st') = dom (students st)
      /\ forall k, k <> id -> students st' !! k = students st !! k)
  /\ (forall r st', run model (delete_student id) st = (Resolved r, st') ->
      (status r <> 200%Z -> st' = st)
      /\ forall k, k <> id -> students st' !! k = students st !! k).
Proof.
  split; [| split].
  - intros r st' Hrun. split; [apply (post_students_refused _ _ _ _ Hrun) |].
    intros k d Hk.
    destruct (decide (status r = 201%Z)) as [Hstatus | Hstatus].
    + destruct (post_students_created _ _ _ _ Hrun Hstatus)
        as (d0 & n & _ & _ & Hsave).
      apply save_resolved in Hsave
        as (_ & _ & _ & _ & _ & _ & _ & _ & _ & Hfresh & _ & _ & Hst').
      rewrite Hst', lookup_insert_ne; [exact Hk | congruence].
    + rewrite (post_students_refused _ _ _ _ Hrun Hstatus). exact Hk.
  - intros r st' Hrun.
    destruct (decide (status r = 200%Z)) as [Hstatus | Hstatus].
    + destruct (put_student_updated _ _ _ _ _ Hrun Hstatus) as (d' & _ & Hop).
      apply findByIdAndUpdate_some in Hop as (_ & _ & ch & d & _ & Hd & _ & Hst').
      split; [contradiction |]. rewrite Hst'. split.
      * apply dom_insert_lookup_L. eauto.
      * intros k Hk. apply lookup_insert_ne. congruence.
    + assert (st' = st) as ->; [| repeat split].
      destruct (findByIdAndUpdate id req_body st) as [[[d' |] | e] st0] eqn:Hop.
      * rewrite (put_student_found model _ _ _ _ _ Hop) in Hrun.
        injection Hrun as <- _. contradiction Hstatus. reflexivity.
      * rewrite (put_student_null model _ _ _ _ Hop) in Hrun.
        injection Hrun as _ <-.
        apply (findByIdAndUpdate_other _ _ _ _ _ Hop). discriminate.
      * rewrite (put_student_rejected model _ _ _ _ _ Hop) in Hrun.
        injection Hrun as _ <-.
        apply (findByIdAndUpdate_other _ _ _ _ _ Hop). discriminate.
  - intros r st' Hrun.
    destruct (decide (status r = 200%Z)) as [Hstatus | Hstatus].
    + destruct (delete_student_deleted _ _ _ _ Hrun Hstatus) as (d & _ & Hop).
      apply findByIdAndDelete_some in Hop as (_ & _ & _ & Hst').
      split; [contradiction |]. rewrite Hst'.
      intros k Hk. apply lookup_delete_ne. congruence.
    + assert (st' = st) as ->; [| repeat split].
      destruct (findByIdAndDelete id st) as [[[d |] | e] st0] eqn:Hop.
      * rewrite (delete_student_found model _ _ _ _ Hop) in Hrun.
        injection Hrun as <- _. contradiction Hstatus. reflexivity.
      * rewrite (delete_student_null model _ _ _ Hop) in Hrun.
        injection Hrun as _ <-.
        apply (findByIdAndDelete_other _ _ _ _ Hop). discriminate.
      * rewrite (delete_student_rejected model _ _ _ _ Hop) in Hrun.
        injection Hrun as _ <-.
        apply (findByIdAndDelete_other _ _ _ _ Hop). discriminate.
Qed.

(** X9: when the store cannot be reached, only the two list routes fall
    back.  Get by id answers 400 with the invalid-id message whatever the
    identifier, POST and PUT answer 400, DELETE answers 500, and nothing
    is stored. *)
Theorem unreachable_store_answers (st : store) (e : error) (id : string)
    (req_body : gmap string jsval) :
  reach st = Some e ->
  run model (get_student id) st
  = (Resolved (bad_request "Invalid student ID"), st)
  /\ (exists msg,
        run model (post_students req_body) st = (Resolved (bad_request msg), st))
  /\ (exists msg,
        run model (put_student id req_body) st = (Resolved (bad_request msg), st))
  /\ (exists msg,
        run model (delete_student id) st
        = (Resolved {| status := 500; body := error_body msg |}, st))
  /\ run model get_students st
     = (Resolved {| status := 200; body := JArr sampleStudents |}, st).
Proof.
  intros Hreach. split; [| split; [| split; [| split]]].
  - destruct (valid_object_id id) eqn:Hid.
    + apply (get_student_rejected model _ _ e). apply findById_unreachable; assumption.
    + apply (get_student_rejected model _ _ id_cast_error).
      apply findById_malformed, Hid.
  - destruct (post_students_cases req_body st) as [Hbad | (n & _ & Hsave)];
      [exact Hbad |].
    destruct (save_unreachable (new_student (field req_body "name") n
                                  (field req_body "course")) st e Hreach)
      as [e' He'].
    rewrite He' in Hsave. eexists. exact Hsave.
  - destruct (findByIdAndUpdate_unreachable id req_body st e Hreach) as [e' He'].
    eexists. apply (put_student_rejected model _ _ _ _ _ He').
  - destruct (findByIdAndDelete_unreachable id st e Hreach) as [e' He'].
    eexists. apply (delete_student_rejected model _ _ _ _ He').
  - apply (get_students_rejected model st e). apply find_unreachable, Hreach.
Qed.
End Lifecycle.

(** ** The checks of POST /students and the schema *)

Section Checks.
Context `{Runtime}.
Import Mongoose.

Lemma in_enum_not_empty (s : string) :
  in_enum s = true -> String.eqb s EmptyString = false.
Proof. destruct s; [discriminate | reflexivity]. Qed.

Lemma long_not_empty (s : string) :
  2 <= String.length s -> String.eqb s EmptyString = false.
Proof. destruct s; cbn; [lia | reflexivity]. Qed.

Lemma age_check_of_number (v : jsval) (n : number) :
  truthy v = true -> ToNumber v = Resolved n ->
  age_check v = Resolved (num_lt n (of_Z 16) || num_lt (of_Z 100) n).
Proof.
  intros Htruthy Hnum. unfold age_check, js_lt, js_gt.
  rewrite Htruthy, Hnum. cbn [negb obind].
  destruct (num_lt n (of_Z 16)); reflexivity.
Qed.

(** X10: the two copies of the field rules agree on values of the expected
    type.  A string passes the name check of the handler exactly when it
    passes the validators of the path [name], a number passes the age
    check exactly when it passes the cast and the validators of the path
    [age], and a string that passes the validators of the path [course]
    passes the course check. *)
Theorem checks_agree_with_schema :
  (forall s, name_check (JStr s) = Resolved false
             <-> check_path cast_string validate_name (JStr s) = inr s)
  /\ (forall n, age_check (JNum n) = Resolved false
                <-> check_path cast_number validate_age (JNum n) = inr n)
  /\ (forall s, check_path cast_string validate_course (JStr s) = inr s ->
                course_check (JStr s) = false).
Proof.
  split; [| split].
  - intros s. rewrite name_check_string. unfold check_path, validate_name.
    cbn [cast_string].
    destruct s as [| a s]; [cbn; split; discriminate |].
    cbn [String.eqb].
    destruct (Nat.ltb_spec (String.length (String a s)) 2);
      split; congruence.
  - intros n. unfold check_path, validate_age.
    destruct n as [| | q |].
    + cbn. split; discriminate.
    + cbn. split; discriminate.
    + rewrite age_check_number. cbn -[Qle_bool inject_Z].
      destruct (Qle_bool (inject_Z 16) q), (Qle_bool q (inject_Z 100));
        cbn; split; congruence.
    + cbn. split; discriminate.
  - intros s Hs. rewrite course_check_string.
    unfold check_path, validate_course in Hs. cbn [cast_string] in Hs.
    destruct (String.eqb s EmptyString); [discriminate | reflexivity].
Qed.

(** X11: every Student that meets the field rules can be created.  With a
    name of at least 2 characters, an age that converts to a number in
    [16, 100] (a number, or a text that reads as one), an enumerated
    course, a reachable store and an identifier still free, POST /students
    answers 201 with exactly that name, that number and that course, and
    stores the document. *)
Theorem valid_student_is_created (req_body : gmap string jsval) (st : store)
    (nm crs : string) (q : Q) :
  field req_body "name" = JStr nm ->
  2 <= String.length nm ->
  truthy (field req_body "age") = true ->
  ToNumber (field req_body "age") = Resolved (Num q) ->
  (inject_Z 16 <= q)%Q -> (q <= inject_Z 100)%Q ->
  field req_body "course" = JStr crs ->
  in_enum crs = true ->
  available st ->
  students st !! new_object_id st = None ->
  let d := {| _id := new_object_id st; name := nm; age := Num q;
              course := crs; createdAt := now st; updatedAt := now st;
              __v := 0 |} in
  exists st',
    run model (post_students req_body) st
    = (Resolved {| status := 201; body := JDoc d |}, st')
    /\ students st' = <[new_object_id st := d]> (students st).
Proof.
  intros Hname Hlen Htruthy Hnum Hlo Hhi Hcourse Henum Hst Hfresh d.
  apply Qle_bool_iff in Hlo, Hhi.
  assert (Hcheck1 : name_check (field req_body "name") = Resolved false).
  { rewrite Hname, name_check_string. f_equal. apply Nat.ltb_ge, Hlen. }
  assert (Hcheck2 : age_check (field req_body "age") = Resolved false).
  { rewrite (age_check_of_number _ _ Htruthy Hnum).
    cbn -[Qle_bool inject_Z]. rewrite Hlo, Hhi. reflexivity. }
  assert (Hcheck3 : course_check (field req_body "course") = false).
  { rewrite Hcourse, course_check_string. apply in_enum_not_empty, Henum. }
  rewrite (post_students_saves req_body (Num q) st Hcheck1 Hcheck2 Hcheck3 Hnum).
  rewrite Hname, Hcourse. unfold save, new_student.
  cbn [props_of get_prop String.eqb Ascii.eqb Bool.eqb].
  unfold check_path, validate_name, validate_age, validate_course.
  cbn -[Qle_bool inject_Z Nat.ltb in_enum new_object_id].
  rewrite (long_not_empty _ Hlen), (in_enum_not_empty _ Henum), Henum, Hlo, Hhi.
  replace (String.length nm <? 2)%nat with false
    by (symmetry; apply Nat.ltb_ge, Hlen).
  cbn [negb]. rewrite (available_reach _ Hst), Hfresh.
  eexists. split; reflexivity.
Qed.

(** X12: the name check does not ask for a string.  Every number other
    than 0 and NaN passes it, and so does [true]; an array passes it when
    it has 2 elements or more.  A name that is a number is stored as its
    text when the creation succeeds; a name that is an array is never
    stored. *)
Theorem name_check_beyond_strings (req_body : gmap string jsval) (st : store) :
  (forall n, truthy (JNum n) = true -> name_check (JNum n) = Resolved false)
  /\ name_check (JBool true) = Resolved false
  /\ (forall items,
        name_check (JArr items) = Resolved (length items <? 2)%nat)
  /\ (forall n d st',
        field req_body "name" = JNum n ->
        run model (post_students req_body) st
        = (Resolved {| status := 201; body := JDoc d |}, st') ->
        name d = NumberToString n)
  /\ (forall items,
        field req_body "name" = JArr items ->
        exists msg,
          run model (post_students req_body) st
          = (Resolved (bad_request msg), st)).
Proof.
  split; [| split; [| split; [| split]]].
  - intros n Hn. unfold name_check. rewrite Hn. reflexivity.
  - reflexivity.
  - intros items. unfold name_check.
    change (truthy (JArr items)) with true.
    unfold dot_length, js_lt, ToNumber, obind, num_lt, of_nat, of_Z.
    cbn [negb]. rewrite Qle_bool_inject_Z. f_equal.
    generalize (length items). intros n.
    destruct (Z.leb_spec 2 (Z.of_nat n)), (Nat.ltb_spec n 2);
      cbn; try reflexivity; lia.
  - intros n d st' Hname Hrun.
    destruct (post_students_created _ _ _ _ Hrun eq_refl)
      as (d0 & m & [= <-] & _ & Hsave).
    apply save_resolved in Hsave as (Hcast & _).
    cbn in Hcast. rewrite Hname in Hcast. cbn in Hcast. congruence.
  - intros items Hname.
    destruct (post_students_cases req_body st) as [Hbad | (n & _ & Hsave)];
      [exact Hbad |].
    rewrite Hname in Hsave. unfold save, new_student in Hsave.
    cbn [props_of get_prop String.eqb Ascii.eqb Bool.eqb] in Hsave.
    unfold check_path at 1 in Hsave. cbn [cast_string] in Hsave.
    eexists. exact Hsave.
Qed.

(** X13: an age given as text is compared by the number it reads as.
    Text that reads as no number passes the age check, and the request is
    then refused by the collaborator with its own message, not with the
    age message of the handler; when a creation succeeds, the stored age
    is the number the text reads as. *)
Theorem age_given_as_text (req_body : gmap string jsval) (st : store)
    (s : string) :
  field req_body "age" = JStr s ->
  s <> EmptyString ->
  age_check (JStr s)
  = Resolved (num_lt (StringToNumber s) (of_Z 16)
              || num_lt (of_Z 100) (StringToNumber s))
  /\ (StringToNumber s = NaN ->
      name_check (field req_body "name") = Resolved false ->
      course_check (field req_body "course") = false ->
      exists msg,
        run model (post_students req_body) st
        = (Resolved (bad_request msg), st)
        /\ msg <> age_message)
  /\ (forall d st',
        run model (post_students req_body) st
        = (Resolved {| status := 201; body := JDoc d |}, st') ->
        age d = StringToNumber s).
Proof.
  intros Hage Hs.
  assert (Hcheck : age_check (JStr s)
                   = Resolved (num_lt (StringToNumber s) (of_Z 16)
                               || num_lt (of_Z 100) (StringToNumber s))).
  { apply age_check_of_number; [| reflexivity].
    cbn. apply String.eqb_neq in Hs. rewrite Hs. reflexivity. }
  split; [exact Hcheck |]. split.
  - intros Hnan Hname Hcourse.
    assert (Hpass : age_check (field req_body "age") = Resolved false).
    { rewrite Hage, Hcheck, Hnan. reflexivity. }
    assert (Hnum : ToNumber (field req_body "age") = Resolved NaN).
    { rewrite Hage. cbn. rewrite Hnan. reflexivity. }
    rewrite (post_students_saves req_body NaN st Hname Hpass Hcourse Hnum).
    unfold save, new_student.
    cbn [props_of get_prop String.eqb Ascii.eqb Bool.eqb].
    unfold check_path at 2. cbn [cast_number].
    destruct (check_path cast_string validate_name _);
      destruct (check_path cast_string validate_course _);
      eexists; (split; [reflexivity | apply validation_message_is_generic]).
  - intros d st' Hrun.
    destruct (post_students_created _ _ _ _ Hrun eq_refl)
      as (d0 & n & [= <-] & Hnum & Hsave).
    rewrite Hage in Hnum. cbn in Hnum. injection Hnum as <-.
    apply save_resolved in Hsave as (_ & _ & Hcast & _).
    apply (cast_number_of_number _ _ Hcast).
Qed.
End Checks.

(** ** The field rules across requests *)

Section Rules.
Context `{Runtime}.
Import Mongoose.

End Rules.

(** ** Start of the server *)

(** X15: the server listens on a port only if [listen] succeeded on it,
    and that port is 3000 or 3001.  When 3000 is free it is taken and 3001
    is not tried; 3001 is tried only after 3000 failed with [EADDRINUSE],
    and any other failure on 3000 leaves the server without a port. *)
Theorem startup_ports (listen : Z -> listen_result) :
  (forall p, port (start_server listen) = Some p ->
     listen p = Listening /\ p ∈ attempts (start_server listen)
     /\ (p = 3000%Z \/ p = 3001%Z))
  /\ (listen 3000%Z = Listening ->
      start_server listen = {| attempts := [3000%Z]; port := Some 3000%Z |})
  /\ (3001%Z ∈ attempts (start_server listen) ->
      listen 3000%Z = ListenError "EADDRINUSE")
  /\ (listen 3000%Z = ListenError "EADDRINUSE" ->
      attempts (start_server listen) = [3000%Z; 3001%Z]
      /\ (port (start_server listen) = Some 3001%Z <-> listen 3001%Z = Listening))
  /\ (forall code, listen 3000%Z = ListenError code -> code <> "EADDRINUSE" ->
      start_server listen = {| attempts := [3000%Z]; port := None |}).
Proof.
  unfold start_server, PORT.
  split; [| split; [| split; [| split]]].
  - intros p.
    destruct (listen 3000%Z) as [| code] eqn:H3000; cbn.
    + intros [= <-]. split; [exact H3000 |]. split; [set_solver | left; reflexivity].
    + destruct (String.eqb code "EADDRINUSE"); [| discriminate].
      destruct (listen 3001%Z) eqn:H3001; cbn; [| discriminate].
      intros [= <-]. split; [exact H3001 |]. split; [set_solver | right; reflexivity].
  - intros ->. reflexivity.
  - destruct (listen 3000%Z) as [| code]; cbn.
    + intros Hin. apply list_elem_of_singleton in Hin. discriminate.
    + destruct (String.eqb_spec code "EADDRINUSE") as [-> | Hne]; [reflexivity |].
      cbn. intros Hin. apply list_elem_of_singleton in Hin. discriminate.
  - intros ->. cbn. destruct (listen 3001%Z); cbn;
      (split; [reflexivity | split; congruence]).
  - intros code -> Hcode. apply String.eqb_neq in Hcode. rewrite Hcode.
    reflexivity.
Qed.

(** * The further properties on concrete requests *)

Section Scenes.
#[local] Existing Instance Examples.runtime.
Import Mongoose Examples Scenarios.

Lemma created_student_is_readable_witness :
  run model (post_students dana) empty_store
  = (Resolved {| status := 201; body := JDoc dana_doc |}, dana_store)
  /\ run model (get_student dana_id) dana_store
     = (Resolved {| status := 200; body := JDoc dana_doc |}, dana_store).
Proof.
  split; [reflexivity |].
  destruct (created_student_is_readable dana empty_store dana_store
              {| status := 201; body := JDoc dana_doc |})
    as (d & Hbody & Hget & _); [reflexivity | reflexivity |].
  cbn in Hbody. injection Hbody as <-. exact Hget.
Defined.

Lemma updated_student_is_readable_witness :
  run model (put_student dana_id age_25) dana_store
  = (Resolved {| status := 200; body := JDoc dana_25_doc |}, dana_25_store)
  /\ run model (get_student dana_id) dana_25_store
     = (Resolved {| status := 200; body := JDoc dana_25_doc |}, dana_25_store).
Proof.
  split; [reflexivity |].
  apply (updated_student_is_readable dana_id age_25 dana_store); reflexivity.
Defined.

Lemma deleted_student_is_gone_witness :
  run model (delete_student dana_id) dana_store
  = (Resolved
       {| status := 200;
          body := JObj [("message", JStr "Student deleted");
                        ("student", JDoc dana_doc)] |}, emptied_store)
  /\ run model (delete_student dana_id) emptied_store
     = (Resolved not_found, emptied_store).
Proof.
  split; [reflexivity |].
  destruct (deleted_student_is_gone dana_id dana_store emptied_store
              {| status := 200;
                 body := JObj [("message", JStr "Student deleted");
                               ("student", JDoc dana_doc)] |})
    as (d & _ & _ & Hagain & _); [reflexivity | reflexivity |].
  exact Hagain.
Defined.

Lemma requests_change_only_their_record_witness :
  dom (students dana_25_store) = dom (students dana_store)
  /\ (run model (post_students unlisted_course) dana_store).2 = dana_store.
Proof.
  destruct (requests_change_only_their_record dana_store dana_id age_25)
    as (_ & Hput & _).
  destruct (Hput {| status := 200; body := JDoc dana_25_doc |} dana_25_store)
    as (_ & Hdom & _); [reflexivity |].
  split; [exact Hdom |].
  destruct (requests_change_only_their_record dana_store dana_id unlisted_course)
    as (Hpost & _).
  destruct (run model (post_students unlisted_course) dana_store)
    as [[r | e] st'] eqn:Hrun; [| vm_compute in Hrun; discriminate].
  destruct (Hpost r st' eq_refl) as [Hsame _]. apply Hsame.
  vm_compute in Hrun. injection Hrun as <- _. discriminate.
Defined.

Lemma unreachable_store_answers_witness :
  reach offline_store
  = Some (MongooseError "Operation buffering timed out after 10000ms")
  /\ run model (get_student absent_id) offline_store
     = (Resolved (bad_request "Invalid student ID"), offline_store)
  /\ exists msg,
      run model (post_students dana) offline_store
      = (Resolved (bad_request msg), offline_store).
Proof.
  split; [reflexivity |].
  destruct (unreachable_store_answers offline_store
              (MongooseError "Operation buffering timed out after 10000ms")
              absent_id dana)
    as (Hget & Hpost & _); [reflexivity |].
  split; [exact Hget | exact Hpost].
Defined.

Lemma valid_student_is_created_witness :
  exists st',
    run model (post_students dana_text_age) empty_store
    = (Resolved {| status := 201; body := JDoc dana_doc |}, st').
Proof.
  destruct (valid_student_is_created dana_text_age empty_store
              "Dana Kim" "Civil Engineering" (inject_Z 21))
    as (st' & Hrun & _);
    [reflexivity | cbn; lia | reflexivity | reflexivity
    | unfold Qle; cbn; lia | unfold Qle; cbn; lia
    | reflexivity | reflexivity | reflexivity | reflexivity |].
  exists st'. exact Hrun.
Defined.

Lemma name_check_beyond_strings_witness :
  name (numeric_name_doc) = "12345"
  /\ run model (post_students numeric_name) empty_store
     = (Resolved {| status := 201; body := JDoc numeric_name_doc |},
        numeric_name_store).
Proof.
  assert (Hrun : run model (post_students numeric_name) empty_store
                 = (Resolved {| status := 201; body := JDoc numeric_name_doc |},
                    numeric_name_store)) by reflexivity.
  split; [| exact Hrun].
  destruct (name_check_beyond_strings numeric_name empty_store)
    as (_ & _ & _ & Hstored & _).
  apply (Hstored (of_Z 12345) numeric_name_doc numeric_name_store);
    [reflexivity | exact Hrun].
Defined.

Lemma age_given_as_text_witness :
  exists msg,
    run model (post_students unreadable_age) empty_store
    = (Resolved (bad_request msg), empty_store)
    /\ msg <> age_message.
Proof.
  destruct (age_given_as_text unreadable_age empty_store "abc")
    as (_ & Hrefused & _); [reflexivity | discriminate |].
  apply Hrefused; reflexivity.
Defined.


Lemma startup_ports_witness :
  port (start_server port_3000_taken) = Some 3001%Z
  /\ start_server port_3000_denied = {| attempts := [3000%Z]; port := None |}.
Proof.
  destruct (startup_ports port_3000_taken) as (_ & _ & _ & Htaken & _).
  destruct (Htaken eq_refl) as [_ Hport].
  split; [apply Hport; reflexivity |].
  destruct (startup_ports port_3000_denied) as (_ & _ & _ & _ & Hdenied).
  apply (Hdenied "EACCES"); [reflexivity | discriminate].
Defined.
End Scenes.
